(** * wechat/server: the push endpoint [Handler.ServeHTTP]

    A shallow embedding of [src/server/handler.go].  The handler is a
    program over a small world (the buffer-unit pool, the byte store the
    buffers live in, the response writer and the log of calls it makes), so
    it is written in a state monad and read off the Go text statement by
    statement.  Collaborators that live outside this file of the repository
    (the signature check, the pool helpers, package [request]) are modelled
    from the specification and say so. *)

From Stdlib Require Import ZArith String Ascii List Lia.
From Stdlib Require Import Floats.PrimFloat.
From stdpp Require Import base gmap list strings.

Local Open Scope Z_scope.

(** ** crypto/sha1 (Go standard library), FIPS 180-4 *)

Module SHA1.

(** 32-bit words are [Z] with the wrap-around written out. *)
Definition wrap32 (x : Z) : Z := x mod 2 ^ 32.
Definition add32 (a b : Z) : Z := wrap32 (a + b).
Definition rotl (n x : Z) : Z :=
  wrap32 (Z.lor (Z.shiftl x n) (Z.shiftr x (32 - n))).
Definition not32 (x : Z) : Z := Z.lxor x (2 ^ 32 - 1).

(** Big-endian encodings. *)
Fixpoint be_bytes (n : nat) (x : Z) : list Z :=
  match n with
  | O => []
  | S k => (Z.shiftr x (8 * Z.of_nat k)) mod 256 :: be_bytes k x
  end.

Definition be_word (bs : list Z) : Z :=
  fold_left (fun acc b => acc * 256 + b) bs 0.

(** Padding: 0x80, zeros up to 56 mod 64, the bit length on 8 bytes. *)
Definition pad (msg : list Z) : list Z :=
  let len := Z.of_nat (length msg) in
  let zeros := Z.to_nat ((55 - len) mod 64) in
  msg ++ [128] ++ repeat 0 zeros ++ be_bytes 8 (8 * len).

Fixpoint chunks {A} (fuel size : nat) (l : list A) : list (list A) :=
  match fuel with
  | O => []
  | S k =>
      match l with
      | [] => []
      | _ => firstn size l :: chunks k size (skipn size l)
      end
  end.

Definition words_of_block (blk : list Z) : list Z :=
  map be_word (chunks 16 4 blk).

(** The message schedule: 16 words extended to 80. *)
Fixpoint extend (n : nat) (w : list Z) : list Z :=
  match n with
  | O => w
  | S k =>
      let t := length w in
      let x := Z.lxor (Z.lxor (nth (t - 3) w 0) (nth (t - 8) w 0))
                      (Z.lxor (nth (t - 14) w 0) (nth (t - 16) w 0)) in
      extend k (w ++ [rotl 1 x])
  end.

Definition schedule (blk : list Z) : list Z := extend 64 (words_of_block blk).

Record regs := Regs { ra : Z; rb : Z; rc : Z; rd : Z; re : Z }.

Definition f_t (t : nat) (b c d : Z) : Z :=
  if (t <? 20)%nat then Z.lor (Z.land b c) (Z.land (not32 b) d)
  else if (t <? 40)%nat then Z.lxor (Z.lxor b c) d
  else if (t <? 60)%nat then
    Z.lor (Z.lor (Z.land b c) (Z.land b d)) (Z.land c d)
  else Z.lxor (Z.lxor b c) d.

Definition k_t (t : nat) : Z :=
  if (t <? 20)%nat then 0x5A827999
  else if (t <? 40)%nat then 0x6ED9EBA1
  else if (t <? 60)%nat then 0x8F1BBCDC
  else 0xCA62C1D6.

Definition round (t : nat) (wt : Z) (r : regs) : regs :=
  let tmp :=
    add32 (add32 (add32 (add32 (rotl 5 (ra r)) (f_t t (rb r) (rc r) (rd r)))
                        (re r)) wt) (k_t t) in
  Regs tmp (ra r) (rotl 30 (rb r)) (rc r) (rd r).

Fixpoint rounds (t : nat) (ws : list Z) (r : regs) : regs :=
  match ws with
  | [] => r
  | wt :: ws' => rounds (S t) ws' (round t wt r)
  end.

Definition block (h : regs) (blk : list Z) : regs :=
  let r := rounds 0 (schedule blk) h in
  Regs (add32 (ra h) (ra r)) (add32 (rb h) (rb r)) (add32 (rc h) (rc r))
       (add32 (rd h) (rd r)) (add32 (re h) (re r)).

Definition init : regs :=
  Regs 0x67452301 0xEFCDAB89 0x98BADCFE 0x10325476 0xC3D2E1F0.

(** [sha1.Sum]: the 20-byte digest. *)
Definition Sum (msg : list Z) : list Z :=
  let p := pad msg in
  let h := fold_left block (chunks (length p) 64 p) init in
  be_bytes 4 (ra h) ++ be_bytes 4 (rb h) ++ be_bytes 4 (rc h)
    ++ be_bytes 4 (rd h) ++ be_bytes 4 (re h).

(** Two different messages with the same digest. *)
Definition collision (x y : list Z) : Prop := x <> y /\ Sum x = Sum y.

End SHA1.

(** ** encoding/hex (Go standard library) *)

Module Hex.

Definition hextable : string := "0123456789abcdef".

Definition digit (n : Z) : ascii :=
  match String.get (Z.to_nat n) hextable with
  | Some c => c
  | None => "0"%char
  end.

(** [hex.EncodeToString]: two lowercase digits per byte. *)
Fixpoint EncodeToString (bs : list Z) : string :=
  match bs with
  | [] => EmptyString
  | b :: bs' =>
      String (digit (Z.shiftr b 4))
             (String (digit (Z.land b 15)) (EncodeToString bs'))
  end.

End Hex.

Definition is_byte (b : Z) : Prop := 0 <= b < 256.

(** A Go string is its sequence of bytes. *)
Definition bytes_of_string (s : string) : list Z :=
  map (fun c => Z.of_N (N_of_ascii c)) (list_ascii_of_string s).

Local Open Scope string_scope.
Local Open Scope list_scope.

(** ** checkSignature *)

Module Signature.

(** [sort.Strings]: ascending, bytewise lexicographic order. *)
Fixpoint insert (s : string) (l : list string) : list string :=
  match l with
  | [] => [s]
  | x :: l' => if String.leb s x then s :: l else x :: insert s l'
  end.

Definition sort_Strings (l : list string) : list string :=
  fold_right insert [] l.

(** The bytes that are hashed: the three strings, sorted, back to back. *)
Definition signing_input (token timestamp nonce : string) : string :=
  String.concat "" (sort_Strings [token; timestamp; nonce]).

(** The signature the platform sends for [(token, timestamp, nonce)]. *)
Definition sign (token timestamp nonce : string) : string :=
  Hex.EncodeToString
    (SHA1.Sum (bytes_of_string (signing_input token timestamp nonce))).

(** Modelled from the spec: [checkSignature] is declared in a file of
    package [server] that is not among the sources.  Section 4.1: sort
    [token], [timestamp], [nonce], concatenate without separator, SHA-1,
    lowercase hex, compare byte for byte with [signature].  The scratch
    slice only saves an allocation; what is left in it is not specified
    and the result does not depend on it. *)
Definition checkSignature
    (signature timestamp nonce token : string) (scratch : list Z) : bool :=
  String.eqb (sign token timestamp nonce) signature.

(** [s'] is [s] with exactly one character replaced by another one. *)
Definition single_char_change (s s' : string) : Prop :=
  exists (pre post : string) (c c' : ascii),
    c <> c' /\
    s = (pre +:+ String c post) /\
    s' = (pre +:+ String c' post).

(** How often a character occurs in a string. *)
Fixpoint occurrences (c : ascii) (s : string) : nat :=
  match s with
  | EmptyString => 0%nat
  | String x s' => ((if Ascii.eqb x c then 1 else 0) + occurrences c s')%nat
  end.

End Signature.

(** ** Package [request]: the envelope and the narrow shapes *)

(** Modelled from the spec: package [message/request] is not among the
    sources.  The envelope is the flattened superset record of section 3
    with the wire fields of section 6; each narrow shape has exactly the
    fields [ServeHTTP] fills in.  Identifiers and counters are integers,
    coordinates are [float64], everything else is a string. *)
Module request.

Definition int64 := Z.
Definition int := Z.
Definition float64 := PrimFloat.float.

(** The discriminator constants.  Their values are not in the sources, so
    they are parameters of the development. *)
Class Consts := {
  MSG_TYPE_TEXT : string;
  MSG_TYPE_IMAGE : string;
  MSG_TYPE_VOICE : string;
  MSG_TYPE_VIDEO : string;
  MSG_TYPE_LOCATION : string;
  MSG_TYPE_LINK : string;
  MSG_TYPE_EVENT : string;
  EVENT_TYPE_SUBSCRIBE : string;
  EVENT_TYPE_UNSUBSCRIBE : string;
  EVENT_TYPE_SCAN : string;
  EVENT_TYPE_LOCATION : string;
  EVENT_TYPE_CLICK : string;
  EVENT_TYPE_VIEW : string;
  EVENT_TYPE_MASSSENDJOBFINISH : string;
  EVENT_TYPE_MERCHANTORDER : string
}.

Module CommonHead.
Record t := {
  ToUserName : string;
  FromUserName : string;
  CreateTime : int64;
  MsgType : string
}.
Definition zero : t := Build_t "" "" 0 "".
End CommonHead.

Module Request.
Record t := {
  CommonHead : CommonHead.t;
  MsgId : int64;
  MsgID : int64;
  Content : string;
  MediaId : string;
  PicURL : string;
  Format : string;
  Recognition : string;
  ThumbMediaId : string;
  LocationX : float64;
  LocationY : float64;
  Scale : int;
  Label : string;
  Title : string;
  Description : string;
  URL : string;
  Event : string;
  EventKey : string;
  Ticket : string;
  Latitude : float64;
  Longitude : float64;
  Precision : float64;
  Status : string;
  TotalCount : int;
  FilterCount : int;
  SentCount : int;
  ErrorCount : int;
  OrderId : string;
  OrderStatus : int;
  ProductId : string;
  SkuInfo : string
}.
(** The promoted field [msgReq.MsgType]. *)
Definition MsgType (r : t) : string := CommonHead.MsgType (CommonHead r).
(** The zero value of the envelope. *)
Definition zero : t :=
  Build_t CommonHead.zero 0 0 "" "" "" "" "" "" 0%float 0%float 0 "" "" ""
          "" "" "" "" 0%float 0%float 0%float "" 0 0 0 0 "" 0 "" "".
End Request.

Module Text.
Record t := { CommonHead : CommonHead.t; MsgId : int64; Content : string }.
End Text.

Module Image.
Record t := { CommonHead : CommonHead.t; MsgId : int64;
              MediaId : string; PicURL : string }.
End Image.

Module Voice.
Record t := { CommonHead : CommonHead.t; MsgId : int64; MediaId : string;
              Format : string; Recognition : string }.
End Voice.

Module Video.
Record t := { CommonHead : CommonHead.t; MsgId : int64;
              MediaId : string; ThumbMediaId : string }.
End Video.

Module Location.
Record t := { CommonHead : CommonHead.t; MsgId : int64;
              LocationX : float64; LocationY : float64;
              Scale : int; Label : string }.
End Location.

Module Link.
Record t := { CommonHead : CommonHead.t; MsgId : int64; Title : string;
              Description : string; URL : string }.
End Link.

Module MenuClickEvent.
Record t := { CommonHead : CommonHead.t; Event : string; EventKey : string }.
End MenuClickEvent.

Module MenuViewEvent.
Record t := { CommonHead : CommonHead.t; Event : string; EventKey : string }.
End MenuViewEvent.

Module LocationEvent.
Record t := { CommonHead : CommonHead.t; Event : string;
              Latitude : float64; Longitude : float64;
              Precision : float64 }.
End LocationEvent.

Module MerchantOrderEvent.
Record t := { CommonHead : CommonHead.t; Event : string; OrderId : string;
              OrderStatus : int; ProductId : string; SkuInfo : string }.
End MerchantOrderEvent.

Module SubscribeEvent.
Record t := { CommonHead : CommonHead.t; Event : string }.
End SubscribeEvent.

Module SubscribeByScanEvent.
Record t := { CommonHead : CommonHead.t; Event : string;
              EventKey : string; Ticket : string }.
End SubscribeByScanEvent.

Module UnsubscribeEvent.
Record t := { CommonHead : CommonHead.t; Event : string }.
End UnsubscribeEvent.

Module ScanEvent.
Record t := { CommonHead : CommonHead.t; Event : string;
              EventKey : string; Ticket : string }.
End ScanEvent.

Module MassSendJobFinishEvent.
Record t := { CommonHead : CommonHead.t; Event : string; MsgId : int64;
              Status : string; TotalCount : int; FilterCount : int;
              SentCount : int; ErrorCount : int }.
End MassSendJobFinishEvent.

End request.


(** ** The standard-library types the handler touches *)

(** Go's [error]: the message is all the handler passes on. *)
Definition error := string.

Abbreviation byte := Byte.byte.

Module url.

(** [url.Values]: each key maps to the list of its values. *)
Abbreviation Values := (gmap string (list string)).

Record URL := { RawQuery : string }.

(** [url.ParseQuery]: the values parsed and the first error met, if any.
    It belongs to the Go standard library; the handler is parametric in
    it. *)
Class Parser := { ParseQuery : string -> Values * option error }.

(** [Values.Get]: the first value of the key, or the empty string. *)
Definition Get (v : Values) (key : string) : string :=
  match v !! key with
  | Some (x :: _) => x
  | _ => ""
  end.

End url.

Module io.

(** An [io.Reader] seen from [io.Copy]: the bytes it delivers, then either
    the end of the stream or a read error. *)
Record Reader := { data : list byte; fail : option error }.

End io.

Module xml.

(** [xml.Unmarshal] on an envelope: the bytes are decoded into the target,
    which is updated in place; the error, if any, is returned.  It belongs
    to the Go standard library; the handler is parametric in it. *)
Class Decoder := {
  Unmarshal :
    list byte -> request.Request.t -> request.Request.t * option error
}.

End xml.

Module http.

Record Request := {
  Method : string;
  URL : option url.URL;
  Body : io.Reader
}.

End http.

(** ** The world of one handler *)

(** Byte buffers live in a store, so that two slices can share their bytes. *)
Abbreviation loc := positive.

Record slice := Slice { ptr : loc; len : nat }.

(** Modelled from the spec: the type [bufferUnit] is not among the sources.
    Section 3, ScratchUnit: a scratch array for the signature check, a
    growable body buffer and a decode target that is reused.  The fields
    are the ones [ServeHTTP] names. *)
Record bufferUnit := {
  signatureBuf : list Z;
  msgBuf : loc;
  msgRequest : request.Request.t
}.

(** [store] holds the byte arrays, [units] the buffer units (a [*bufferUnit]
    is a location of [units]), [bufferUnitPool] the idle units. *)
Record State := {
  store : gmap loc (list byte);
  units : gmap loc bufferUnit;
  bufferUnitPool : list loc
}.

(** The fields of [HandlerSetting], each with what it is called on
    (the writer and the request are those of the running call).  A handler
    that is given a byte slice can read it there and then: the call
    records the slice together with the bytes it shows when the call is
    made. *)
Inductive Callback :=
| InvalidRequestHandler (err : error)
| UnknownRequestHandler (msg : slice) (bytes : list byte)
| TextRequestHandler (text : request.Text.t)
| ImageRequestHandler (image : request.Image.t)
| VoiceRequestHandler (voice : request.Voice.t)
| VideoRequestHandler (video : request.Video.t)
| LocationRequestHandler (location : request.Location.t)
| LinkRequestHandler (link : request.Link.t)
| SubscribeEventHandler (event : request.SubscribeEvent.t)
| SubscribeByScanEventHandler (event : request.SubscribeByScanEvent.t)
| UnsubscribeEventHandler (event : request.UnsubscribeEvent.t)
| ScanEventHandler (event : request.ScanEvent.t)
| LocationEventHandler (event : request.LocationEvent.t)
| MenuClickEventHandler (event : request.MenuClickEvent.t)
| MenuViewEventHandler (event : request.MenuViewEvent.t)
| MassSendJobFinishEventHandler (event : request.MassSendJobFinishEvent.t)
| MerchantOrderEventHandler (event : request.MerchantOrderEvent.t).

(** The handlers of the typed messages and events. *)
Definition typed (c : Callback) : bool :=
  match c with
  | InvalidRequestHandler _ | UnknownRequestHandler _ _ => false
  | _ => true
  end.

(** What one run of the handler does to its surroundings, in order. *)
Inductive Effect :=
| Acquire (unit_ : loc)
| Release (unit_ : loc)
| CheckSignature (signature timestamp nonce token : string)
| WriteString (s : string)
| Call (c : Callback).

(** Programs: a state transformer that also emits its effects. *)
Definition M (A : Type) : Type := State -> A * State * list Effect.

#[global] Instance M_ret : MRet M := fun A x s => (x, s, []).

#[global] Instance M_bind : MBind M := fun A B f m s =>
  let '(a, s1, t1) := m s in
  let '(b, s2, t2) := f a s1 in
  (b, s2, t1 ++ t2).

Definition emit (e : Effect) : M unit := fun s => (tt, s, [e]).
Definition get_store : M (gmap loc (list byte)) := fun s => (store s, s, []).
Definition set_store (h : gmap loc (list byte)) : M unit :=
  fun s => (tt, {| store := h; units := units s;
                   bufferUnitPool := bufferUnitPool s |}, []).

(** [defer d] around a body: [d] runs when the body is left, on every path. *)
Definition defer (d body : M unit) : M unit := body ;; d.

Definition result {A} (x : A * State * list Effect) : A := fst (fst x).
Definition final {A} (x : A * State * list Effect) : State := snd (fst x).
Definition trace {A} (x : A * State * list Effect) : list Effect := snd x.

(** An outcome with earlier effects put in front. *)
Definition preceded {A} (t : list Effect) (x : A * State * list Effect)
  : A * State * list Effect :=
  (result x, final x, t ++ trace x).

(** The callbacks among the effects. *)
Definition calls (t : list Effect) : list Callback :=
  omap (fun e => match e with Call c => Some c | _ => None end) t.

(** What the handler itself wrote to the response. *)
Definition written (t : list Effect) : string :=
  String.concat ""
    (omap (fun e => match e with WriteString s => Some s | _ => None end) t).

Definition contents (h : gmap loc (list byte)) (l : loc) : list byte :=
  default [] (h !! l).

(** Slices and buffers. *)

(** [make([]byte, n)]: a fresh array of [n] zero bytes. *)
Definition make (n : nat) : M slice := fun s =>
  let l := fresh (dom (store s)) in
  (Slice l n,
   {| store := <[l := replicate n Byte.x00]> (store s);
      units := units s;
      bufferUnitPool := bufferUnitPool s |}, []).

(** The bytes a slice shows. *)
Definition slice_bytes (h : gmap loc (list byte)) (b : slice) : list byte :=
  take (len b) (contents h (ptr b)).

(** [copy(dst, src)]: the first [min(len(dst), len(src))] bytes. *)
Definition copy (dst src : slice) : M nat :=
  h ← get_store ;
  let d := contents h (ptr dst) in
  let n := Nat.min (len dst) (len src) in
  set_store (<[ptr dst := take n (slice_bytes h src) ++ drop n d]> h) ;;
  mret n.

(** Reading through a slice: the bytes it shows right now. *)
Definition read_slice (b : slice) : M (list byte) :=
  h ← get_store ; mret (slice_bytes h b).

(** [bytes.Buffer.Bytes]: the unread part of the buffer, not a copy. *)
Definition Buffer_Bytes (b : loc) : M slice :=
  h ← get_store ; mret (Slice b (length (contents h b))).

(** [io.Copy(buf, src)]: everything [src] delivers is appended to [buf];
    the error, if any, is the reader's. *)
Definition io_Copy (dst : loc) (src : io.Reader) : M (option error) :=
  h ← get_store ;
  set_store (<[dst := contents h dst ++ io.data src]> h) ;;
  mret (io.fail src).

(** [io.WriteString(w, s)]. *)
Definition io_WriteString (s : string) : M unit := emit (WriteString s).

(** ** The buffer-unit pool *)

Definition zero_unit : bufferUnit :=
  {| signatureBuf := []; msgBuf := 1%positive;
     msgRequest := request.Request.zero |}.

(** Dereferencing a [*bufferUnit]. *)
Definition unit_at (s : State) (p : loc) : bufferUnit :=
  default zero_unit (units s !! p).

Definition load_unit (p : loc) : M bufferUnit := fun s => (unit_at s p, s, []).

(** Modelled from the spec: [newBufferUnit] is not among the sources.
    Section 4.2: a new unit has its own body buffer, empty, and a zero
    decode target. *)
Definition newBufferUnit : M loc := fun s =>
  let b := fresh (dom (store s)) in
  let p := fresh (dom (units s)) in
  (p,
   {| store := <[b := []]> (store s);
      units := <[p := {| signatureBuf := []; msgBuf := b;
                         msgRequest := request.Request.zero |}]> (units s);
      bufferUnitPool := bufferUnitPool s |}, []).

(** Modelled from the spec: [getBufferUnitFromPool] is not among the
    sources.  Section 4.2, Acquire: an idle unit if there is one, otherwise
    a new one. *)
Definition getBufferUnitFromPool : M loc := fun s =>
  match bufferUnitPool s with
  | p :: rest =>
      (p, {| store := store s; units := units s; bufferUnitPool := rest |},
       [Acquire p])
  | [] => (p ← newBufferUnit ; emit (Acquire p) ;; mret p) s
  end.

(** Modelled from the spec: [putBufferUnitToPool] is not among the
    sources.  Section 4.2, Release: every buffer of the unit is reset, then
    the unit joins the idle set. *)
Definition putBufferUnitToPool (p : loc) : M unit := fun s =>
  let u := unit_at s p in
  (tt,
   {| store := <[msgBuf u := []]> (store s);
      units := <[p := {| signatureBuf := signatureBuf u; msgBuf := msgBuf u;
                         msgRequest := request.Request.zero |}]> (units s);
      bufferUnitPool := p :: bufferUnitPool s |},
   [Release p]).

(** Idle units are clean: the body buffer is empty and the decode target is
    the zero envelope. *)
Definition clean (s : State) (p : loc) : Prop :=
  exists u, units s !! p = Some u /\
            store s !! msgBuf u = Some [] /\
            msgRequest u = request.Request.zero.

Definition pool_wf (s : State) : Prop :=
  Forall (clean s) (bufferUnitPool s).

(** ** The handler *)

(** Modelled from the spec: the type [HandlerSetting] is not among the
    sources.  Section 6: the shared secret [Token] and one callback per
    case; the callbacks are the constructors of [Callback]. *)
Record HandlerSetting := { Token : string }.

Record Handler := { setting : HandlerSetting }.

(** [NewHandler]: the setting is kept, the pool starts empty. *)
Definition NewHandler (setting_ : HandlerSetting) : Handler * State :=
  ({| setting := setting_ |},
   {| store := ∅; units := ∅; bufferUnitPool := [] |}).

(** The call of [checkSignature] on the unit's scratch array. *)
Definition checkSignature
    (signature timestamp nonce token : string) (p : loc) : M bool :=
  u ← load_unit p ;
  emit (CheckSignature signature timestamp nonce token) ;;
  mret (Signature.checkSignature signature timestamp nonce token
          (signatureBuf u)).

Definition invoke (c : Callback) : M unit := emit (Call c).

(** ** Collaborators to run the handler with

    The handler is parametric in [url.ParseQuery], [xml.Unmarshal] and the
    constants of package [request].  To run it on concrete requests the
    following stand in for them. *)

Module Platform.

(** The discriminator values the platform sends on the wire. *)
#[export] Instance wire : request.Consts := {|
  request.MSG_TYPE_TEXT := "text";
  request.MSG_TYPE_IMAGE := "image";
  request.MSG_TYPE_VOICE := "voice";
  request.MSG_TYPE_VIDEO := "video";
  request.MSG_TYPE_LOCATION := "location";
  request.MSG_TYPE_LINK := "link";
  request.MSG_TYPE_EVENT := "event";
  request.EVENT_TYPE_SUBSCRIBE := "subscribe";
  request.EVENT_TYPE_UNSUBSCRIBE := "unsubscribe";
  request.EVENT_TYPE_SCAN := "SCAN";
  request.EVENT_TYPE_LOCATION := "LOCATION";
  request.EVENT_TYPE_CLICK := "CLICK";
  request.EVENT_TYPE_VIEW := "VIEW";
  request.EVENT_TYPE_MASSSENDJOBFINISH := "MASSSENDJOBFINISH";
  request.EVENT_TYPE_MERCHANTORDER := "merchant_order"
|}.

(** Splitting at every occurrence of a separator character. *)
Fixpoint split_on (sep : ascii) (s : string) : list string :=
  match s with
  | EmptyString => [EmptyString]
  | String c s' =>
      if Ascii.eqb c sep then EmptyString :: split_on sep s'
      else match split_on sep s' with
           | [] => [String c EmptyString]
           | x :: xs => String c x :: xs
           end
  end.

(** [key=value] cut at the first ['=']; without one the value is empty. *)
Fixpoint cut (s : string) : string * string :=
  match s with
  | EmptyString => (EmptyString, EmptyString)
  | String c s' =>
      if Ascii.eqb c "="%char then (EmptyString, s')
      else let '(k, v) := cut s' in (String c k, v)
  end.

(** [url.ParseQuery] on queries without escapes: pairs are separated by
    ['&'], empty pairs are skipped, values of one key keep their order. *)
Definition ParseQuery (query : string) : url.Values * option error :=
  (fold_left
     (fun (m : url.Values) seg =>
        if decide (seg = "") then m
        else let '(k, v) := cut seg in <[k := default [] (m !! k) ++ [v]]> m)
     (split_on "&"%char query) ∅,
   None).

(** The text from the first occurrence of [pat] on, without [pat]. *)
Definition after (pat s : string) : option string :=
  match String.index 0 pat s with
  | Some n =>
      Some (String.substring (n + String.length pat) (String.length s) s)
  | None => None
  end.

(** The text before the first occurrence of [pat]. *)
Definition before (pat s : string) : option string :=
  match String.index 0 pat s with
  | Some n => Some (String.substring 0 n s)
  | None => None
  end.

(** The text of the first element [<name>...</name>] of a document. *)
Definition element (name doc : string) : option string :=
  match after ("<" +:+ name +:+ ">") doc with
  | Some rest => before ("</" +:+ name +:+ ">") rest
  | None => None
  end.

(** [xml.Unmarshal] on flat documents [<xml><A>a</A>...</xml>] whose
    elements are plain text: the string fields that occur are stored in the
    target, every other field keeps its value; anything that is not such a
    document is a syntax error. *)
Definition Unmarshal (body : list byte) (target : request.Request.t)
  : request.Request.t * option error :=
  let doc := string_of_list_byte body in
  let str name old := default old (element name doc) in
  if String.prefix "<xml>" doc then
    match before "</xml>" doc with
    | None => (target, Some "XML syntax error: unexpected EOF")
    | Some _ =>
      let h := request.Request.CommonHead target in
      (request.Request.Build_t
         (request.CommonHead.Build_t
            (str "ToUserName" (request.CommonHead.ToUserName h))
            (str "FromUserName" (request.CommonHead.FromUserName h))
            (request.CommonHead.CreateTime h)
            (str "MsgType" (request.CommonHead.MsgType h)))
         (request.Request.MsgId target)
         (request.Request.MsgID target)
         (str "Content" (request.Request.Content target))
         (str "MediaId" (request.Request.MediaId target))
         (str "PicUrl" (request.Request.PicURL target))
         (str "Format" (request.Request.Format target))
         (str "Recognition" (request.Request.Recognition target))
         (str "ThumbMediaId" (request.Request.ThumbMediaId target))
         (request.Request.LocationX target)
         (request.Request.LocationY target)
         (request.Request.Scale target)
         (str "Label" (request.Request.Label target))
         (str "Title" (request.Request.Title target))
         (str "Description" (request.Request.Description target))
         (str "Url" (request.Request.URL target))
         (str "Event" (request.Request.Event target))
         (str "EventKey" (request.Request.EventKey target))
         (str "Ticket" (request.Request.Ticket target))
         (request.Request.Latitude target)
         (request.Request.Longitude target)
         (request.Request.Precision target)
         (str "Status" (request.Request.Status target))
         (request.Request.TotalCount target)
         (request.Request.FilterCount target)
         (request.Request.SentCount target)
         (request.Request.ErrorCount target)
         (str "OrderId" (request.Request.OrderId target))
         (request.Request.OrderStatus target)
         (str "ProductId" (request.Request.ProductId target))
         (str "SkuInfo" (request.Request.SkuInfo target)),
       None)
    end
  else (target, Some "XML syntax error: expected element <xml>").

(** Does the character occur in the string? *)
Fixpoint has_char (c : ascii) (s : string) : bool :=
  match s with
  | EmptyString => false
  | String x s' => Ascii.eqb x c || has_char c s'
  end.

(** [url.ParseQuery] as it is since Go 1.17, on queries without escapes: a
    pair that contains a semicolon is left out and reported; the first
    error is the one returned, next to the values of the other pairs. *)
Definition ParseQuery_strict (query : string) : url.Values * option error :=
  fold_left
    (fun (acc : url.Values * option error) seg =>
       let '(m, err) := acc in
       if decide (seg = "") then acc
       else if has_char ";"%char seg then
         (m, match err with
             | None => Some "invalid semicolon separator in query"
             | Some _ => err
             end)
       else let '(k, v) := cut seg in
            (<[k := default [] (m !! k) ++ [v]]> m, err))
    (split_on "&"%char query) (∅, None).

Definition strict_parser : url.Parser :=
  {| url.ParseQuery := ParseQuery_strict |}.

#[export] Instance parser : url.Parser := {| url.ParseQuery := ParseQuery |}.

#[export] Instance decoder : xml.Decoder := {| xml.Unmarshal := Unmarshal |}.

End Platform.

(** ** [ServeHTTP] *)

Section ServeHTTP.

Import request.

Context {K : request.Consts} {P : url.Parser} {D : xml.Decoder}.

(** The call [xml.Unmarshal(msgReqBody, msgReq)] with [msgReq] pointing into
    the unit. *)
Definition xml_Unmarshal (body : slice) (p : loc) : M (option error) :=
  fun s =>
    let u := unit_at s p in
    let '(req, err) :=
      xml.Unmarshal (slice_bytes (store s) body) (msgRequest u) in
    (err,
     {| store := store s;
        units := <[p := {| signatureBuf := signatureBuf u; msgBuf := msgBuf u;
                           msgRequest := req |}]> (units s);
        bufferUnitPool := bufferUnitPool s |},
     []).

(** The two [default] branches: the body is copied before it is handed
    out, because its bytes stay with the pooled unit. *)
Definition unknownRequest (msgReqBody : slice) : M unit :=
  msgReqBodyCopy ← make (len msgReqBody) ;
  copy msgReqBodyCopy msgReqBody ;;
  shown ← read_slice msgReqBodyCopy ;
  invoke (UnknownRequestHandler msgReqBodyCopy shown).

(** The inner [switch msgReq.Event]. *)
Definition eventRouter (msgReq : Request.t) (msgReqBody : slice) : M unit :=
  let ev := Request.Event msgReq in
  if decide (ev = EVENT_TYPE_CLICK) then
    invoke (MenuClickEventHandler
      {| MenuClickEvent.CommonHead := Request.CommonHead msgReq;
         MenuClickEvent.Event := Request.Event msgReq;
         MenuClickEvent.EventKey := Request.EventKey msgReq |})
  else if decide (ev = EVENT_TYPE_VIEW) then
    invoke (MenuViewEventHandler
      {| MenuViewEvent.CommonHead := Request.CommonHead msgReq;
         MenuViewEvent.Event := Request.Event msgReq;
         MenuViewEvent.EventKey := Request.EventKey msgReq |})
  else if decide (ev = EVENT_TYPE_LOCATION) then
    invoke (LocationEventHandler
      {| LocationEvent.CommonHead := Request.CommonHead msgReq;
         LocationEvent.Event := Request.Event msgReq;
         LocationEvent.Latitude := Request.Latitude msgReq;
         LocationEvent.Longitude := Request.Longitude msgReq;
         LocationEvent.Precision := Request.Precision msgReq |})
  else if decide (ev = EVENT_TYPE_MERCHANTORDER) then
    invoke (MerchantOrderEventHandler
      {| MerchantOrderEvent.CommonHead := Request.CommonHead msgReq;
         MerchantOrderEvent.Event := Request.Event msgReq;
         MerchantOrderEvent.OrderId := Request.OrderId msgReq;
         MerchantOrderEvent.OrderStatus := Request.OrderStatus msgReq;
         MerchantOrderEvent.ProductId := Request.ProductId msgReq;
         MerchantOrderEvent.SkuInfo := Request.SkuInfo msgReq |})
  else if decide (ev = EVENT_TYPE_SUBSCRIBE) then
    if decide (Request.Ticket msgReq = "") then
      invoke (SubscribeEventHandler
        {| SubscribeEvent.CommonHead := Request.CommonHead msgReq;
           SubscribeEvent.Event := Request.Event msgReq |})
    else
      invoke (SubscribeByScanEventHandler
        {| SubscribeByScanEvent.CommonHead := Request.CommonHead msgReq;
           SubscribeByScanEvent.Event := Request.Event msgReq;
           SubscribeByScanEvent.EventKey := Request.EventKey msgReq;
           SubscribeByScanEvent.Ticket := Request.Ticket msgReq |})
  else if decide (ev = EVENT_TYPE_UNSUBSCRIBE) then
    invoke (UnsubscribeEventHandler
      {| UnsubscribeEvent.CommonHead := Request.CommonHead msgReq;
         UnsubscribeEvent.Event := Request.Event msgReq |})
  else if decide (ev = EVENT_TYPE_SCAN) then
    invoke (ScanEventHandler
      {| ScanEvent.CommonHead := Request.CommonHead msgReq;
         ScanEvent.Event := Request.Event msgReq;
         ScanEvent.EventKey := Request.EventKey msgReq;
         ScanEvent.Ticket := Request.Ticket msgReq |})
  else if decide (ev = EVENT_TYPE_MASSSENDJOBFINISH) then
    invoke (MassSendJobFinishEventHandler
      {| MassSendJobFinishEvent.CommonHead := Request.CommonHead msgReq;
         MassSendJobFinishEvent.Event := Request.Event msgReq;
         MassSendJobFinishEvent.MsgId := Request.MsgID msgReq;
         MassSendJobFinishEvent.Status := Request.Status msgReq;
         MassSendJobFinishEvent.TotalCount := Request.TotalCount msgReq;
         MassSendJobFinishEvent.FilterCount := Request.FilterCount msgReq;
         MassSendJobFinishEvent.SentCount := Request.SentCount msgReq;
         MassSendJobFinishEvent.ErrorCount := Request.ErrorCount msgReq |})
  else unknownRequest msgReqBody.

(** The outer [switch msgReq.MsgType]. *)
Definition requestRouter (msgReq : Request.t) (msgReqBody : slice) : M unit :=
  let ty := Request.MsgType msgReq in
  if decide (ty = MSG_TYPE_TEXT) then
    invoke (TextRequestHandler
      {| Text.CommonHead := Request.CommonHead msgReq;
         Text.MsgId := Request.MsgId msgReq;
         Text.Content := Request.Content msgReq |})
  else if decide (ty = MSG_TYPE_EVENT) then eventRouter msgReq msgReqBody
  else if decide (ty = MSG_TYPE_LINK) then
    invoke (LinkRequestHandler
      {| Link.CommonHead := Request.CommonHead msgReq;
         Link.MsgId := Request.MsgId msgReq;
         Link.Title := Request.Title msgReq;
         Link.Description := Request.Description msgReq;
         Link.URL := Request.URL msgReq |})
  else if decide (ty = MSG_TYPE_VOICE) then
    invoke (VoiceRequestHandler
      {| Voice.CommonHead := Request.CommonHead msgReq;
         Voice.MsgId := Request.MsgId msgReq;
         Voice.MediaId := Request.MediaId msgReq;
         Voice.Format := Request.Format msgReq;
         Voice.Recognition := Request.Recognition msgReq |})
  else if decide (ty = MSG_TYPE_LOCATION) then
    invoke (LocationRequestHandler
      {| Location.CommonHead := Request.CommonHead msgReq;
         Location.MsgId := Request.MsgId msgReq;
         Location.LocationX := Request.LocationX msgReq;
         Location.LocationY := Request.LocationY msgReq;
         Location.Scale := Request.Scale msgReq;
         Location.Label := Request.Label msgReq |})
  else if decide (ty = MSG_TYPE_IMAGE) then
    invoke (ImageRequestHandler
      {| Image.CommonHead := Request.CommonHead msgReq;
         Image.MsgId := Request.MsgId msgReq;
         Image.MediaId := Request.MediaId msgReq;
         Image.PicURL := Request.PicURL msgReq |})
  else if decide (ty = MSG_TYPE_VIDEO) then
    invoke (VideoRequestHandler
      {| Video.CommonHead := Request.CommonHead msgReq;
         Video.MsgId := Request.MsgId msgReq;
         Video.MediaId := Request.MediaId msgReq;
         Video.ThumbMediaId := Request.ThumbMediaId msgReq |})
  else unknownRequest msgReqBody.

(** [case "POST"]: a pushed message or event. *)
Definition servePOST (handler : Handler) (r : http.Request) : M unit :=
  match http.URL r with
  | None => invoke (InvalidRequestHandler "r.URL == nil")
  | Some u =>
    let '(urlValues, err) := url.ParseQuery (url.RawQuery u) in
    match err with
    | Some err => invoke (InvalidRequestHandler err)
    | None =>
      let signature := url.Get urlValues "signature" in
      if decide (signature = "") then
        invoke (InvalidRequestHandler "signature is empty")
      else
      let timestamp := url.Get urlValues "timestamp" in
      if decide (timestamp = "") then
        invoke (InvalidRequestHandler "timestamp is empty")
      else
      let nonce := url.Get urlValues "nonce" in
      if decide (nonce = "") then
        invoke (InvalidRequestHandler "nonce is empty")
      else
      bufferUnit ← getBufferUnitFromPool ;
      defer (putBufferUnitToPool bufferUnit) (
        ok ← checkSignature signature timestamp nonce
               (Token (setting handler)) bufferUnit ;
        if negb ok then
          invoke (InvalidRequestHandler "check signature failed")
        else
        unit_ ← load_unit bufferUnit ;
        err ← io_Copy (msgBuf unit_) (http.Body r) ;
        match err with
        | Some err => invoke (InvalidRequestHandler err)
        | None =>
          msgReqBody ← Buffer_Bytes (msgBuf unit_) ;
          err ← xml_Unmarshal msgReqBody bufferUnit ;
          match err with
          | Some err => invoke (InvalidRequestHandler err)
          | None =>
            unit_ ← load_unit bufferUnit ;
            requestRouter (msgRequest unit_) msgReqBody
          end
        end)
    end
  end.

(** [case "GET"]: the handshake. *)
Definition serveGET (handler : Handler) (r : http.Request) : M unit :=
  match http.URL r with
  | None => invoke (InvalidRequestHandler "r.URL == nil")
  | Some u =>
    let '(urlValues, err) := url.ParseQuery (url.RawQuery u) in
    match err with
    | Some err => invoke (InvalidRequestHandler err)
    | None =>
      let signature := url.Get urlValues "signature" in
      if decide (signature = "") then
        invoke (InvalidRequestHandler "signature is empty")
      else
      let timestamp := url.Get urlValues "timestamp" in
      if decide (timestamp = "") then
        invoke (InvalidRequestHandler "timestamp is empty")
      else
      let nonce := url.Get urlValues "nonce" in
      if decide (nonce = "") then
        invoke (InvalidRequestHandler "nonce is empty")
      else
      let echostr := url.Get urlValues "echostr" in
      if decide (echostr = "") then
        invoke (InvalidRequestHandler "echostr is empty")
      else
      bufferUnit ← getBufferUnitFromPool ;
      defer (putBufferUnitToPool bufferUnit) (
        ok ← checkSignature signature timestamp nonce
               (Token (setting handler)) bufferUnit ;
        if negb ok then
          invoke (InvalidRequestHandler "check signature failed")
        else io_WriteString echostr)
    end
  end.

(** [switch r.Method]: any other method falls out of the switch. *)
Definition ServeHTTP (handler : Handler) (r : http.Request) : M unit :=
  if decide (http.Method r = "POST") then servePOST handler r
  else if decide (http.Method r = "GET") then serveGET handler r
  else mret tt.

(** *** Vocabulary for the properties *)

(** The query parameters the handler works with: none when the request has
    no URL or its query does not parse. *)
Definition query (r : http.Request) : option url.Values :=
  match http.URL r with
  | None => None
  | Some u =>
      match url.ParseQuery (url.RawQuery u) with
      | (vals, None) => Some vals
      | (_, Some _) => None
      end
  end.

Definition params (r : http.Request) : url.Values := default ∅ (query r).

(** The parameters each method asks for, in the order they are looked at. *)
Definition required (method : string) : list string :=
  if decide (method = "POST") then ["signature"; "timestamp"; "nonce"]
  else if decide (method = "GET") then
    ["signature"; "timestamp"; "nonce"; "echostr"]
  else [].

(** Parameter extraction succeeds with [vals]. *)
Definition extracted (r : http.Request) (vals : url.Values) : Prop :=
  query r = Some vals /\
  Forall (fun key => url.Get vals key <> "") (required (http.Method r)).

(** The signature of the request is the one its timestamp and nonce have
    under the handler's token. *)
Definition verified (handler : Handler) (vals : url.Values) : Prop :=
  url.Get vals "signature" =
  Signature.sign (Token (setting handler))
    (url.Get vals "timestamp") (url.Get vals "nonce").

#[global] Instance verified_dec handler vals : Decision (verified handler vals).
Proof. unfold verified. apply _. Defined.

(** A handshake the handler answers itself. *)
Definition accepted_handshake (handler : Handler) (r : http.Request) : Prop :=
  exists vals, extracted r vals /\ verified handler vals.

Definition message_types : list string :=
  [MSG_TYPE_TEXT; MSG_TYPE_EVENT; MSG_TYPE_LINK; MSG_TYPE_VOICE;
   MSG_TYPE_LOCATION; MSG_TYPE_IMAGE; MSG_TYPE_VIDEO].

Definition event_types : list string :=
  [EVENT_TYPE_CLICK; EVENT_TYPE_VIEW; EVENT_TYPE_LOCATION;
   EVENT_TYPE_MERCHANTORDER; EVENT_TYPE_SUBSCRIBE; EVENT_TYPE_UNSUBSCRIBE;
   EVENT_TYPE_SCAN; EVENT_TYPE_MASSSENDJOBFINISH].

(** The case constants of each [switch] are pairwise different. *)
Definition distinct_consts : Prop :=
  NoDup message_types /\ NoDup event_types.

(** The envelope fits no case of the two switches. *)
Definition unrecognized (msgReq : Request.t) : Prop :=
  ~ In (Request.MsgType msgReq) message_types \/
  (Request.MsgType msgReq = MSG_TYPE_EVENT /\
   ~ In (Request.Event msgReq) event_types).

(** A POST request that is verified, read and decoded into [msgReq]. *)
Definition delivered (handler : Handler) (r : http.Request)
    (msgReq : Request.t) : Prop :=
  http.Method r = "POST" /\
  (exists vals, extracted r vals /\ verified handler vals) /\
  io.fail (http.Body r) = None /\
  xml.Unmarshal (io.data (http.Body r)) Request.zero = (msgReq, None).

(** What a body leaves alone while it holds unit [p]: the pool, the other
    units, and every byte array but the unit's own buffer. *)
Definition frame (p : loc) (s s' : State) : Prop :=
  bufferUnitPool s' = bufferUnitPool s /\
  (forall q, q <> p -> units s' !! q = units s !! q) /\
  (forall l x, store s !! l = Some x -> l <> msgBuf (unit_at s' p) ->
               store s' !! l = Some x).

(** Requests served one after the other. *)
Fixpoint serve_all (handler : Handler) (rs : list http.Request) (s : State)
  : State :=
  match rs with
  | [] => s
  | r :: rs' => serve_all handler rs' (final (ServeHTTP handler r s))
  end.

End ServeHTTP.

(** ** Concrete requests *)

Module Examples.

Definition token : string := "tok".
Definition timestamp : string := "1400000000".
Definition nonce : string := "nonce1".

(** [Signature.sign token timestamp nonce], computed once. *)
Definition signature : string := "acf88ffe2723ff61873a8650213059cf27c18e2e".

Definition credentials : string :=
  ("signature=" +:+ signature +:+ "&timestamp=" +:+ timestamp
     +:+ "&nonce=" +:+ nonce).

Definition handler : Handler := fst (NewHandler {| Token := token |}).
Definition start : State := snd (NewHandler {| Token := token |}).

Definition no_body : io.Reader := {| io.data := []; io.fail := None |}.

Definition request_ (method query : string) (body : io.Reader) : http.Request :=
  {| http.Method := method;
     http.URL := Some {| url.RawQuery := query |};
     http.Body := body |}.

Definition handshake : http.Request :=
  request_ "GET" (credentials +:+ "&echostr=hello") no_body.

Definition bad_handshake : http.Request :=
  request_ "GET"
    ("signature=0000&timestamp=1400000000&nonce=nonce1&echostr=hello") no_body.

Definition push (doc : string) : http.Request :=
  request_ "POST" credentials
    {| io.data := list_byte_of_string doc; io.fail := None |}.

Definition subscribe_doc : string :=
  "<xml><MsgType>event</MsgType><Event>subscribe</Event></xml>".

Definition scan_subscribe_doc : string :=
  "<xml><MsgType>event</MsgType><Event>subscribe</Event><EventKey>qrscene_7</EventKey><Ticket>abc</Ticket></xml>".

Definition unknown_doc : string := "<xml><MsgType>foo</MsgType></xml>".

Definition unknown_event_doc : string :=
  "<xml><MsgType>event</MsgType><Event>poke</Event></xml>".

(** A body whose stream breaks after a few bytes. *)
Definition broken_push : http.Request :=
  request_ "POST" credentials
    {| io.data := list_byte_of_string "<xml><Msg";
       io.fail := Some "unexpected EOF" |}.

(** A method the handler has no case for. *)
Definition put_request : http.Request := request_ "PUT" credentials no_body.

(** A handshake without [echostr]. *)
Definition no_echostr : http.Request := request_ "GET" credentials no_body.

(** A handshake whose [signature] is there but empty, and the same query
    without it. *)
Definition empty_signature : http.Request :=
  request_ "GET" "signature=&timestamp=1400000000&nonce=nonce1&echostr=hello"
    no_body.

Definition dropped_signature : http.Request :=
  request_ "GET" "timestamp=1400000000&nonce=nonce1&echostr=hello" no_body.

(** The parameters and the envelope of a request, as the stand-ins give
    them. *)
Definition values (r : http.Request) : url.Values :=
  params (P := Platform.parser) r.

Definition envelope (r : http.Request) : request.Request.t :=
  (Platform.Unmarshal (io.data (http.Body r)) request.Request.zero).1.

Definition run (r : http.Request) : State -> unit * State * list Effect :=
  ServeHTTP (K := Platform.wire) (P := Platform.parser)
    (D := Platform.decoder) handler r.

(** More bodies, one per kind of route. *)
Definition text_doc : string :=
  "<xml><ToUserName>gh_1</ToUserName><FromUserName>o_2</FromUserName><MsgType>text</MsgType><Content>hi</Content></xml>".

Definition link_doc : string :=
  "<xml><MsgType>link</MsgType><Title>t</Title><Description>d</Description><Url>u</Url></xml>".

Definition click_doc : string :=
  "<xml><MsgType>event</MsgType><Event>CLICK</Event><EventKey>menu_1</EventKey></xml>".

Definition mass_send_doc : string :=
  "<xml><MsgType>event</MsgType><Event>MASSSENDJOBFINISH</Event><Status>send success</Status></xml>".


(** A handshake without a timestamp and without a nonce. *)
Definition no_timestamp : http.Request :=
  request_ "GET" ("signature=" ++ signature ++ "&echostr=hello") no_body.

(** The handshake followed by a pair with a semicolon. *)
Definition semicolon_handshake : http.Request :=
  request_ "GET" (credentials ++ "&echostr=hello&a;b") no_body.

(** A state in which one unit is idle. *)
Definition warm : State := final (run handshake start).

Definition run_strict (r : http.Request)
  : State -> unit * State * list Effect :=
  ServeHTTP (K := Platform.wire) (P := Platform.strict_parser)
    (D := Platform.decoder) handler r.

End Examples.

(** * Properties *)

(** ** The signature check *)

Section SignatureFacts.

Import Signature.

Lemma checkSignature_spec signature timestamp nonce token scratch :
  checkSignature signature timestamp nonce token scratch = true <->
  signature = sign token timestamp nonce.
Proof.
  unfold checkSignature. rewrite String.eqb_eq. split; congruence.
Qed.

Lemma checkSignature_sign token timestamp nonce scratch :
  checkSignature (sign token timestamp nonce) timestamp nonce token scratch
  = true.
Proof. now apply checkSignature_spec. Qed.

Lemma checkSignature_mismatch signature timestamp nonce token scratch :
  signature <> sign token timestamp nonce ->
  checkSignature signature timestamp nonce token scratch = false.
Proof.
  intros Hne. apply not_true_is_false. now rewrite checkSignature_spec.
Qed.

Example Sum_abc :
  Hex.EncodeToString (SHA1.Sum (bytes_of_string "abc"))
  = "a9993e364706816aba3e25717850c26c9cd0d89d".
Proof. vm_compute. reflexivity. Qed.

Example Sum_two_blocks :
  Hex.EncodeToString
    (SHA1.Sum (bytes_of_string
       "abcdbcdecdefdefgefghfghighijhijkijkljklmklmnlmnomnopnopq"))
  = "84983e441c3bd26ebaae4aa1f95129e5e54670f1".
Proof. vm_compute. reflexivity. Qed.

Example signing_input_example :
  signing_input Examples.token Examples.timestamp Examples.nonce
  = "1400000000nonce1tok".
Proof. reflexivity. Qed.

Example sign_example :
  sign Examples.token Examples.timestamp Examples.nonce = Examples.signature.
Proof. vm_compute. reflexivity. Qed.

End SignatureFacts.

Section SignatureMutation.

Import Signature.

Lemma append_cons a s1 s2 : String a s1 +:+ s2 = String a (s1 +:+ s2).
Proof. reflexivity. Qed.

Lemma append_nil_l s : EmptyString +:+ s = s.
Proof. reflexivity. Qed.

Lemma append_nil_r s : s +:+ EmptyString = s.
Proof.
  induction s as [|a s IH]; [reflexivity | now rewrite append_cons, IH].
Qed.

Lemma single_char_change_neq s s' : single_char_change s s' -> s <> s'.
Proof.
  intros (pre & post & c & c' & Hc & -> & ->).
  induction pre as [|x pre IH]; intros Heq.
  - rewrite !append_nil_l in Heq. injection Heq as Heq. contradiction.
  - rewrite !append_cons in Heq. injection Heq as Heq. now apply IH.
Qed.


Lemma occurrences_append c s1 s2 :
  occurrences c (s1 +:+ s2)
  = (occurrences c s1 + occurrences c s2)%nat.
Proof.
  induction s1 as [|x s1 IH]; [reflexivity|].
  rewrite append_cons. simpl. rewrite IH. lia.
Qed.

Lemma single_char_change_occurrences s s' :
  single_char_change s s' ->
  exists c, occurrences c s = S (occurrences c s').
Proof.
  intros (pre & post & c & c' & Hc & -> & ->). exists c.
  rewrite !occurrences_append. simpl. rewrite Ascii.eqb_refl.
  destruct (Ascii.eqb c' c) eqn:E.
  - apply Ascii.eqb_eq in E. congruence.
  - lia.
Qed.

Lemma concat_cons x l :
  String.concat "" (x :: l) = (x +:+ String.concat "" l).
Proof.
  destruct l as [|y l]; simpl; [|reflexivity].
  now rewrite append_nil_r.
Qed.

Lemma occurrences_insert c s l :
  occurrences c (String.concat "" (insert s l))
  = (occurrences c s + occurrences c (String.concat "" l))%nat.
Proof.
  induction l as [|x l IH].
  - simpl. lia.
  - cbn [insert]. destruct (String.leb s x).
    + now rewrite (concat_cons s), occurrences_append.
    + rewrite (concat_cons x (insert s l)), (concat_cons x l).
      rewrite !occurrences_append, IH. lia.
Qed.

(** Sorting only permutes: each character occurs in the hashed bytes as
    often as in the three strings together. *)
Lemma occurrences_signing_input c token timestamp nonce :
  occurrences c (signing_input token timestamp nonce)
  = (occurrences c token + occurrences c timestamp + occurrences c nonce)%nat.
Proof.
  unfold signing_input, sort_Strings. cbn [fold_right].
  rewrite !occurrences_insert. simpl. lia.
Qed.

(** Replacing one character of the timestamp or of the nonce changes the
    bytes that are hashed. *)
Lemma signing_input_timestamp token timestamp timestamp' nonce :
  single_char_change timestamp timestamp' ->
  signing_input token timestamp nonce <> signing_input token timestamp' nonce.
Proof.
  intros [c Hc]%single_char_change_occurrences Heq.
  apply (f_equal (occurrences c)) in Heq.
  rewrite !occurrences_signing_input in Heq. lia.
Qed.

Lemma signing_input_nonce token timestamp nonce nonce' :
  single_char_change nonce nonce' ->
  signing_input token timestamp nonce <> signing_input token timestamp nonce'.
Proof.
  intros [c Hc]%single_char_change_occurrences Heq.
  apply (f_equal (occurrences c)) in Heq.
  rewrite !occurrences_signing_input in Heq. lia.
Qed.

Lemma length_be_bytes n x : length (SHA1.be_bytes n x) = n.
Proof. induction n as [|n IH]; simpl; [reflexivity | now rewrite IH]. Qed.

Lemma length_Sum msg : length (SHA1.Sum msg) = 20%nat.
Proof.
  unfold SHA1.Sum. cbv zeta. rewrite !length_app, !length_be_bytes.
  reflexivity.
Qed.

Lemma length_EncodeToString bs :
  String.length (Hex.EncodeToString bs) = (2 * length bs)%nat.
Proof. induction bs as [|b bs IH]; simpl; [reflexivity | rewrite IH; lia]. Qed.

(** A signature is forty characters long. *)
Lemma length_sign token timestamp nonce :
  String.length (sign token timestamp nonce) = 40%nat.
Proof. unfold sign. now rewrite length_EncodeToString, length_Sum. Qed.

(** A signature of any other length is rejected. *)
Lemma checkSignature_length signature timestamp nonce token scratch :
  String.length signature <> 40%nat ->
  checkSignature signature timestamp nonce token scratch = false.
Proof.
  intros Hlen. apply checkSignature_mismatch. intros ->.
  now rewrite length_sign in Hlen.
Qed.

(** Replacing one character of the right signature makes the check fail. *)
Lemma checkSignature_signature_mutated signature' timestamp nonce token scratch :
  single_char_change (sign token timestamp nonce) signature' ->
  checkSignature signature' timestamp nonce token scratch = false.
Proof.
  intros Hch%single_char_change_neq. apply checkSignature_mismatch. congruence.
Qed.

Lemma digit_inj a b :
  0 <= a < 16 -> 0 <= b < 16 -> Hex.digit a = Hex.digit b -> a = b.
Proof.
  intros Ha Hb.
  assert (Ea : a = 0 \/ a = 1 \/ a = 2 \/ a = 3 \/ a = 4 \/ a = 5 \/ a = 6 \/
               a = 7 \/ a = 8 \/ a = 9 \/ a = 10 \/ a = 11 \/ a = 12 \/
               a = 13 \/ a = 14 \/ a = 15) by lia.
  assert (Eb : b = 0 \/ b = 1 \/ b = 2 \/ b = 3 \/ b = 4 \/ b = 5 \/ b = 6 \/
               b = 7 \/ b = 8 \/ b = 9 \/ b = 10 \/ b = 11 \/ b = 12 \/
               b = 13 \/ b = 14 \/ b = 15) by lia.
  clear Ha Hb.
  repeat (destruct Ea as [-> | Ea]);
    try subst a; repeat (destruct Eb as [-> | Eb]); try subst b;
    intros H; try reflexivity; vm_compute in H; discriminate.
Qed.

Lemma byte_split b :
  is_byte b -> b = 16 * Z.shiftr b 4 + Z.land b 15 /\
               0 <= Z.shiftr b 4 < 16 /\ 0 <= Z.land b 15 < 16.
Proof.
  intros Hb. unfold is_byte in Hb.
  rewrite Z.shiftr_div_pow2 by lia.
  change 15 with (Z.ones 4). rewrite Z.land_ones by lia.
  change (2 ^ 4) with 16.
  pose proof (Z.div_mod b 16). pose proof (Z.mod_pos_bound b 16).
  split; [lia|]. split; [|lia].
  split; [apply Z.div_pos; lia | apply Z.div_lt_upper_bound; lia].
Qed.

(** The hex rendering loses nothing. *)
Lemma EncodeToString_inj xs ys :
  Forall is_byte xs -> Forall is_byte ys ->
  Hex.EncodeToString xs = Hex.EncodeToString ys -> xs = ys.
Proof.
  intros Hx. revert ys. induction Hx as [|x xs Hx Hxs IH]; intros ys Hy Heq.
  - destruct ys; [reflexivity | discriminate].
  - destruct Hy as [|y ys Hy Hys]; [discriminate|].
    cbn [Hex.EncodeToString] in Heq. injection Heq as Hhi Hlo Hrest.
    destruct (byte_split x Hx) as (Ex & Hxh & Hxl).
    destruct (byte_split y Hy) as (Ey & Hyh & Hyl).
    apply digit_inj in Hhi; [|assumption..].
    apply digit_inj in Hlo; [|assumption..].
    f_equal; [lia | now apply IH].
Qed.

Lemma be_bytes_is_byte n x : Forall is_byte (SHA1.be_bytes n x).
Proof.
  induction n as [|n IH]; cbn [SHA1.be_bytes]; constructor; [|assumption].
  unfold is_byte. apply Z.mod_pos_bound. lia.
Qed.

Lemma Sum_is_byte msg : Forall is_byte (SHA1.Sum msg).
Proof.
  unfold SHA1.Sum. cbv zeta. rewrite !Forall_app.
  repeat split; apply be_bytes_is_byte.
Qed.

Lemma bytes_of_string_inj s1 s2 :
  bytes_of_string s1 = bytes_of_string s2 -> s1 = s2.
Proof.
  unfold bytes_of_string. revert s2.
  induction s1 as [|c1 s1 IH]; intros [|c2 s2] H; try discriminate;
    [reflexivity|].
  cbn in H. injection H as Hc Hs. f_equal; [|now apply IH].
  apply N2Z.inj in Hc.
  rewrite <- (ascii_N_embedding c1), <- (ascii_N_embedding c2).
  now rewrite Hc.
Qed.

(** Two signatures agree only if the digests do. *)
Lemma sign_inj token timestamp nonce token' timestamp' nonce' :
  sign token timestamp nonce = sign token' timestamp' nonce' ->
  SHA1.Sum (bytes_of_string (signing_input token timestamp nonce))
  = SHA1.Sum (bytes_of_string (signing_input token' timestamp' nonce')).
Proof. apply EncodeToString_inj; apply Sum_is_byte. Qed.

(** If the right signature still verifies after one character of the
    timestamp was replaced, the two byte strings that were hashed are a
    SHA-1 collision. *)
Lemma checkSignature_timestamp_mutated token timestamp timestamp' nonce scratch :
  single_char_change timestamp timestamp' ->
  checkSignature (sign token timestamp nonce) timestamp' nonce token scratch
  = true ->
  SHA1.collision
    (bytes_of_string (signing_input token timestamp nonce))
    (bytes_of_string (signing_input token timestamp' nonce)).
Proof.
  intros Hch Hok. split.
  - intros Heq%bytes_of_string_inj.
    now apply (signing_input_timestamp token timestamp timestamp' nonce).
  - apply sign_inj. now apply checkSignature_spec in Hok.
Qed.

(** The same for the nonce. *)
Lemma checkSignature_nonce_mutated token timestamp nonce nonce' scratch :
  single_char_change nonce nonce' ->
  checkSignature (sign token timestamp nonce) timestamp nonce' token scratch
  = true ->
  SHA1.collision
    (bytes_of_string (signing_input token timestamp nonce))
    (bytes_of_string (signing_input token timestamp nonce')).
Proof.
  intros Hch Hok. split.
  - intros Heq%bytes_of_string_inj.
    now apply (signing_input_nonce token timestamp nonce nonce').
  - apply sign_inj. now apply checkSignature_spec in Hok.
Qed.

End SignatureMutation.

(** ** Running programs *)

Section Run.

Lemma bind_run {A B} (m : M A) (f : A -> M B) s :
  (m ≫= f) s =
  (result (f (result (m s)) (final (m s))),
   final (f (result (m s)) (final (m s))),
   trace (m s) ++ trace (f (result (m s)) (final (m s)))).
Proof.
  unfold mbind, M_bind, result, final, trace.
  destruct (m s) as [[a s1] t1]. simpl.
  destruct (f a s1) as [[b s2] t2]. reflexivity.
Qed.



Lemma getBufferUnitFromPool_trace s :
  trace (getBufferUnitFromPool s) = [Acquire (result (getBufferUnitFromPool s))].
Proof.
  unfold getBufferUnitFromPool. destruct (bufferUnitPool s); reflexivity.
Qed.

Lemma checkSignature_run signature timestamp nonce token p s :
  checkSignature signature timestamp nonce token p s =
  (Signature.checkSignature signature timestamp nonce token
     (signatureBuf (unit_at s p)),
   s, [CheckSignature signature timestamp nonce token]).
Proof. reflexivity. Qed.

(** Acquire, run the body, release: the shape of both branches. *)
Lemma bracket_run (body : loc -> M unit) s :
  (getBufferUnitFromPool ≫=
     fun p => defer (putBufferUnitToPool p) (body p)) s =
  let g := getBufferUnitFromPool s in
  let b := body (result g) (final g) in
  (tt, final (putBufferUnitToPool (result g) (final b)),
   Acquire (result g) :: trace b ++ [Release (result g)]).
Proof.
  cbv zeta. unfold defer. rewrite !bind_run, getBufferUnitFromPool_trace.
  reflexivity.
Qed.


End Run.

(** ** The handler *)

Section Properties.

Import request.

Context {K : request.Consts} {P : url.Parser} {D : xml.Decoder}.

Implicit Types (h : Handler) (r : http.Request) (s : State).
Implicit Types (vals : url.Values) (p : loc) (e : error).

Lemma query_Some r vals :
  query r = Some vals <->
  exists u, http.URL r = Some u /\ url.ParseQuery (url.RawQuery u) = (vals, None).
Proof.
  unfold query. destruct (http.URL r) as [u|].
  - destruct (url.ParseQuery (url.RawQuery u)) as [v [e|]] eqn:E; split.
    + discriminate.
    + intros (u' & [= <-] & H). congruence.
    + intros [= ->]. eauto.
    + intros (u' & [= <-] & H). congruence.
  - split; [discriminate | intros (u & H & _); discriminate].
Qed.

Lemma verified_checkSignature h vals scratch :
  Signature.checkSignature
    (url.Get vals "signature") (url.Get vals "timestamp")
    (url.Get vals "nonce") (Token (setting h)) scratch = true <->
  verified h vals.
Proof. apply checkSignature_spec. Qed.

Lemma unverified_checkSignature h vals scratch :
  ~ verified h vals ->
  Signature.checkSignature
    (url.Get vals "signature") (url.Get vals "timestamp")
    (url.Get vals "nonce") (Token (setting h)) scratch = false.
Proof. intros H. apply not_true_is_false. now rewrite verified_checkSignature. Qed.

(** *** Requests that are turned away before a unit is taken *)

Lemma serve_other_method h r s :
  http.Method r <> "POST" -> http.Method r <> "GET" ->
  ServeHTTP h r s = (tt, s, []).
Proof.
  intros HP HG. unfold ServeHTTP.
  rewrite (decide_False (P := http.Method r = "POST")) by assumption.
  rewrite (decide_False (P := http.Method r = "GET")) by assumption.
  reflexivity.
Qed.

Lemma serve_POST h r : http.Method r = "POST" -> ServeHTTP h r = servePOST h r.
Proof. intros H. unfold ServeHTTP. now rewrite decide_True. Qed.

Lemma serve_GET h r : http.Method r = "GET" -> ServeHTTP h r = serveGET h r.
Proof.
  intros H. unfold ServeHTTP. rewrite decide_False, decide_True; [done..|].
  rewrite H. discriminate.
Qed.

Lemma required_POST : required "POST" = ["signature"; "timestamp"; "nonce"].
Proof. reflexivity. Qed.

Lemma required_GET :
  required "GET" = ["signature"; "timestamp"; "nonce"; "echostr"].
Proof. reflexivity. Qed.

(** Without a full set of parameters the only effect is one call of
    [InvalidRequestHandler]. *)
Lemma serve_unextracted h r s :
  http.Method r = "POST" \/ http.Method r = "GET" ->
  (forall vals, ~ extracted r vals) ->
  exists e, ServeHTTP h r s = (tt, s, [Call (InvalidRequestHandler e)]).
Proof.
  intros HM Hno.
  assert (Hq : forall vals, query r = Some vals ->
             ~ Forall (fun key => url.Get vals key <> "") (required (http.Method r))).
  { intros vals Hq HF. now apply (Hno vals). }
  clear Hno. unfold query in Hq.
  destruct HM as [HM|HM]; rewrite HM in Hq.
  - rewrite serve_POST by assumption. unfold servePOST.
    destruct (http.URL r) as [u|]; [|eauto].
    destruct (url.ParseQuery (url.RawQuery u)) as [vals [e|]]; [eauto|].
    repeat (case_decide; [eauto|]).
    exfalso. apply (Hq vals eq_refl). rewrite required_POST.
    repeat constructor; assumption.
  - rewrite serve_GET by assumption. unfold serveGET.
    destruct (http.URL r) as [u|]; [|eauto].
    destruct (url.ParseQuery (url.RawQuery u)) as [vals [e|]]; [eauto|].
    repeat (case_decide; [eauto|]).
    exfalso. apply (Hq vals eq_refl). rewrite required_GET.
    repeat constructor; assumption.
Qed.

(** *** Requests that take a unit *)

Lemma extracted_POST r vals :
  http.Method r = "POST" -> extracted r vals ->
  exists u, http.URL r = Some u /\
            url.ParseQuery (url.RawQuery u) = (vals, None) /\
            url.Get vals "signature" <> "" /\
            url.Get vals "timestamp" <> "" /\
            url.Get vals "nonce" <> "".
Proof.
  intros HM [(u & HU & HP)%query_Some HF]. rewrite HM, required_POST in HF.
  exists u. repeat split; try assumption.
  all: repeat (apply Forall_cons in HF as [? HF]); assumption.
Qed.

Lemma extracted_GET r vals :
  http.Method r = "GET" -> extracted r vals ->
  exists u, http.URL r = Some u /\
            url.ParseQuery (url.RawQuery u) = (vals, None) /\
            url.Get vals "signature" <> "" /\
            url.Get vals "timestamp" <> "" /\
            url.Get vals "nonce" <> "" /\
            url.Get vals "echostr" <> "".
Proof.
  intros HM [(u & HU & HP)%query_Some HF]. rewrite HM, required_GET in HF.
  exists u. repeat split; try assumption.
  all: repeat (apply Forall_cons in HF as [? HF]); assumption.
Qed.

Lemma extracted_unique r vals vals' :
  extracted r vals -> extracted r vals' -> vals = vals'.
Proof. intros [H _] [H' _]. congruence. Qed.

Lemma checkSignature_decide h vals scratch :
  Signature.checkSignature
    (url.Get vals "signature") (url.Get vals "timestamp")
    (url.Get vals "nonce") (Token (setting h)) scratch
  = bool_decide (verified h vals).
Proof.
  case_bool_decide as Hv.
  - now apply verified_checkSignature.
  - now apply unverified_checkSignature.
Qed.

(** The GET branch once the parameters are there. *)
Lemma serve_GET_extracted h r s vals :
  http.Method r = "GET" -> extracted r vals ->
  ServeHTTP h r s =
  let g := getBufferUnitFromPool s in
  let p := result g in
  let ok := bool_decide (verified h vals) in
  (tt, final (putBufferUnitToPool p (final g)),
   [Acquire p;
    CheckSignature (url.Get vals "signature") (url.Get vals "timestamp")
      (url.Get vals "nonce") (Token (setting h));
    if ok then WriteString (url.Get vals "echostr")
    else Call (InvalidRequestHandler "check signature failed");
    Release p]).
Proof.
  intros HM Hex. rewrite serve_GET by assumption.
  destruct (extracted_GET _ _ HM Hex) as (u & HU & HP & H1 & H2 & H3 & H4).
  unfold serveGET. rewrite HU, HP.
  rewrite !decide_False by assumption.
  rewrite bracket_run. cbv zeta.
  rewrite bind_run, checkSignature_run. unfold result at 1, final at 2; simpl fst; simpl snd.
  rewrite checkSignature_decide. now case_bool_decide.
Qed.

(** Silent steps in front of a continuation. *)

Lemma preceded_nil {A} (x : A * State * list Effect) : preceded [] x = x.
Proof. now destruct x as [[a s] t]. Qed.

Lemma bind_preceded {A B} (m : M A) (f : A -> M B) s a s1 t :
  m s = (a, s1, t) -> (m ≫= f) s = preceded t (f a s1).
Proof.
  intros E. unfold mbind, M_bind, preceded, result, final, trace. rewrite E.
  now destruct (f a s1) as [[b s2] t2].
Qed.

Lemma bind_silent {A B} (m : M A) (f : A -> M B) s a s1 :
  m s = (a, s1, []) -> (m ≫= f) s = f a s1.
Proof. intros E. rewrite (bind_preceded _ _ _ _ _ _ E). apply preceded_nil. Qed.

Lemma load_unit_bind {B} p (f : bufferUnit -> M B) s :
  (load_unit p ≫= f) s = f (unit_at s p) s.
Proof. now apply bind_silent. Qed.

Lemma io_Copy_bind {B} dst src (f : option error -> M B) s :
  (io_Copy dst src ≫= f) s =
  f (io.fail src)
    {| store := <[dst := contents (store s) dst ++ io.data src]> (store s);
       units := units s; bufferUnitPool := bufferUnitPool s |}.
Proof. now apply bind_silent. Qed.

Lemma Buffer_Bytes_bind {B} b (f : slice -> M B) s :
  (Buffer_Bytes b ≫= f) s = f (Slice b (length (contents (store s) b))) s.
Proof. now apply bind_silent. Qed.

Lemma xml_Unmarshal_bind {B} body p (f : option error -> M B) s :
  (xml_Unmarshal body p ≫= f) s =
  let u := unit_at s p in
  let d := xml.Unmarshal (slice_bytes (store s) body) (msgRequest u) in
  f d.2
    {| store := store s;
       units := <[p := {| signatureBuf := signatureBuf u; msgBuf := msgBuf u;
                          msgRequest := d.1 |}]> (units s);
       bufferUnitPool := bufferUnitPool s |}.
Proof.
  cbv zeta. apply bind_silent. unfold xml_Unmarshal.
  now destruct (xml.Unmarshal _ _) as [req err].
Qed.

Lemma checkSignature_bind {B} h vals p (f : bool -> M B) s :
  (checkSignature (url.Get vals "signature") (url.Get vals "timestamp")
     (url.Get vals "nonce") (Token (setting h)) p ≫= f) s =
  preceded
    [CheckSignature (url.Get vals "signature") (url.Get vals "timestamp")
       (url.Get vals "nonce") (Token (setting h))]
    (f (bool_decide (verified h vals)) s).
Proof.
  apply bind_preceded. rewrite checkSignature_run.
  now rewrite checkSignature_decide.
Qed.

(** The POST branch once the parameters are there: the signature is
    checked, the body read, decoded and routed, and each failure on the way
    ends in [InvalidRequestHandler]. *)
Lemma serve_POST_extracted h r s vals :
  http.Method r = "POST" -> extracted r vals ->
  ServeHTTP h r s =
  let g := getBufferUnitFromPool s in
  let p := result g in
  let s1 := final g in
  let u := unit_at s1 p in
  let s2 :=
    {| store := <[msgBuf u := contents (store s1) (msgBuf u)
                              ++ io.data (http.Body r)]> (store s1);
       units := units s1; bufferUnitPool := bufferUnitPool s1 |} in
  let body := Slice (msgBuf u) (length (contents (store s2) (msgBuf u))) in
  let d := xml.Unmarshal (slice_bytes (store s2) body) (msgRequest u) in
  let s3 :=
    {| store := store s2;
       units := <[p := {| signatureBuf := signatureBuf u; msgBuf := msgBuf u;
                          msgRequest := d.1 |}]> (units s1);
       bufferUnitPool := bufferUnitPool s1 |} in
  let b :=
    preceded
      [CheckSignature (url.Get vals "signature") (url.Get vals "timestamp")
         (url.Get vals "nonce") (Token (setting h))]
      (if bool_decide (verified h vals) then
         match io.fail (http.Body r) with
         | Some e => invoke (InvalidRequestHandler e) s2
         | None =>
             match d.2 with
             | Some e => invoke (InvalidRequestHandler e) s3
             | None => requestRouter (msgRequest (unit_at s3 p)) body s3
             end
         end
       else invoke (InvalidRequestHandler "check signature failed") s1) in
  (tt, final (putBufferUnitToPool p (final b)),
   Acquire p :: trace b ++ [Release p]).
Proof.
  intros HM Hex. rewrite serve_POST by assumption.
  destruct (extracted_POST _ _ HM Hex) as (u & HU & HP & H1 & H2 & H3).
  unfold servePOST. rewrite HU, HP.
  rewrite !decide_False by assumption.
  rewrite bracket_run. cbv zeta.
  rewrite checkSignature_bind. cbv beta.
  case_bool_decide as Hv; cbn [negb]; [|reflexivity].
  rewrite load_unit_bind. cbv beta. rewrite io_Copy_bind. cbv beta.
  destruct (io.fail (http.Body r)) as [e|]; [reflexivity|].
  rewrite Buffer_Bytes_bind. cbv beta. rewrite xml_Unmarshal_bind. cbv beta zeta.
  simpl store. simpl units. simpl bufferUnitPool.
  destruct (xml.Unmarshal _ _) as [req [e|]]; cbn [fst snd]; [reflexivity|].
  rewrite load_unit_bind. reflexivity.
Qed.

(** *** The routers *)

Lemma invoke_run c s : invoke c s = (tt, s, [Call c]).
Proof. reflexivity. Qed.

Lemma unknownRequest_run body s :
  unknownRequest body s =
  let l := fresh (dom (store s)) in
  let h := <[l := replicate (len body) Byte.x00]> (store s) in
  let n := Nat.min (len body) (len body) in
  let h' := <[l := take n (slice_bytes h body) ++ drop n (contents h l)]> h in
  (tt,
   {| store := h'; units := units s; bufferUnitPool := bufferUnitPool s |},
   [Call (UnknownRequestHandler (Slice l (len body))
            (slice_bytes h' (Slice l (len body))))]).
Proof. reflexivity. Qed.

Lemma contents_insert_eq (h : gmap loc (list byte)) l x :
  contents (<[l := x]> h) l = x.
Proof. unfold contents. now rewrite lookup_insert_eq. Qed.

Lemma contents_insert_ne (h : gmap loc (list byte)) l l' x :
  l <> l' -> contents (<[l := x]> h) l' = contents h l'.
Proof. intros. unfold contents. now rewrite lookup_insert_ne. Qed.

(** The default branch hands out a copy: the slice the handler gets sits
    at a location that was not in use and shows the bytes of the body when
    the call is made; it still does when the branch is left, and the body
    itself is left as it was. *)
Lemma unknownRequest_copy body s :
  ptr body ∈ dom (store s) ->
  len body = length (contents (store s) (ptr body)) ->
  let out := unknownRequest body s in
  let l := fresh (dom (store s)) in
  trace out = [Call (UnknownRequestHandler (Slice l (len body))
                       (contents (store s) (ptr body)))] /\
  (l ∉ dom (store s)) /\ l <> ptr body /\
  slice_bytes (store (final out)) (Slice l (len body))
  = contents (store s) (ptr body) /\
  contents (store (final out)) (ptr body) = contents (store s) (ptr body).
Proof.
  intros Hin Hlen. cbv zeta. rewrite unknownRequest_run. cbv zeta.
  cbn [trace final fst snd store]. set (l := fresh (dom (store s))).
  assert (Hl : l ∉ dom (store s)) by apply is_fresh.
  assert (Hne : l <> ptr body) by (intros Heq; apply Hl; now rewrite Heq).
  rewrite Nat.min_id. unfold slice_bytes. cbn [ptr len].
  rewrite !contents_insert_eq, !contents_insert_ne by assumption.
  rewrite Hlen, drop_replicate, Nat.sub_diag, app_nil_r.
  repeat rewrite firstn_all. repeat split; assumption.
Qed.

(** Every path through the two switches ends in exactly one call: a typed
    handler on the envelope, the state untouched, or the [default]
    branch. *)
Lemma requestRouter_cases msgReq body s :
  requestRouter msgReq body s = unknownRequest body s \/
  exists c, typed c = true /\ requestRouter msgReq body s = (tt, s, [Call c]).
Proof.
  unfold requestRouter, eventRouter.
  repeat (case_decide; [right; eexists; split; [|apply invoke_run]; reflexivity|]).
  case_decide.
  - repeat (case_decide; [right; eexists; split; [|apply invoke_run]; reflexivity|]).
    case_decide.
    + case_decide; right; eexists; (split; [|apply invoke_run]); reflexivity.
    + repeat (case_decide; [right; eexists; split; [|apply invoke_run]; reflexivity|]).
      now left.
  - repeat (case_decide; [right; eexists; split; [|apply invoke_run]; reflexivity|]).
    now left.
Qed.

Lemma eventRouter_unrecognized msgReq body s :
  ~ In (Request.Event msgReq) event_types ->
  eventRouter msgReq body s = unknownRequest body s.
Proof.
  intros Hno. unfold eventRouter.
  repeat (rewrite decide_False;
          [|intros Heq; apply Hno; rewrite Heq; unfold event_types;
            simpl; tauto]).
  reflexivity.
Qed.

Lemma requestRouter_event msgReq body s :
  MSG_TYPE_TEXT <> MSG_TYPE_EVENT ->
  Request.MsgType msgReq = MSG_TYPE_EVENT ->
  requestRouter msgReq body s = eventRouter msgReq body s.
Proof.
  intros Hne Hty. unfold requestRouter.
  rewrite decide_False by congruence. now rewrite decide_True.
Qed.

Lemma distinct_text_event : distinct_consts -> MSG_TYPE_TEXT <> MSG_TYPE_EVENT.
Proof.
  intros [Hm _] Heq. unfold message_types in Hm.
  apply NoDup_cons in Hm as [Hm _]. apply Hm. rewrite Heq. left.
Qed.

Lemma requestRouter_unrecognized msgReq body s :
  distinct_consts -> unrecognized msgReq ->
  requestRouter msgReq body s = unknownRequest body s.
Proof.
  intros Hd [Hno | [Hty Hno]].
  - unfold requestRouter.
    repeat (rewrite decide_False;
            [|intros Heq; apply Hno; rewrite Heq; unfold message_types;
              simpl; tauto]).
    reflexivity.
  - rewrite requestRouter_event by auto using distinct_text_event.
    now apply eventRouter_unrecognized.
Qed.

Lemma eventRouter_subscribe msgReq body s :
  distinct_consts ->
  Request.Event msgReq = EVENT_TYPE_SUBSCRIBE ->
  eventRouter msgReq body s =
  (tt, s,
   [Call (if decide (Request.Ticket msgReq = "") then
            SubscribeEventHandler
              {| SubscribeEvent.CommonHead := Request.CommonHead msgReq;
                 SubscribeEvent.Event := Request.Event msgReq |}
          else
            SubscribeByScanEventHandler
              {| SubscribeByScanEvent.CommonHead := Request.CommonHead msgReq;
                 SubscribeByScanEvent.Event := Request.Event msgReq;
                 SubscribeByScanEvent.EventKey := Request.EventKey msgReq;
                 SubscribeByScanEvent.Ticket := Request.Ticket msgReq |})]).
Proof.
  intros [_ He] Hev. unfold eventRouter. rewrite Hev.
  assert (Hne : forall i x, (i < 4)%nat -> event_types !! i = Some x ->
                            EVENT_TYPE_SUBSCRIBE <> x).
  { intros i x Hi Hx Heq.
    assert (i = 4%nat); [|lia].
    apply (NoDup_lookup _ i 4 x He Hx). now rewrite <- Heq. }
  rewrite (decide_False (P := _ = EVENT_TYPE_CLICK))
    by (apply (Hne 0%nat); [lia | reflexivity]).
  rewrite (decide_False (P := _ = EVENT_TYPE_VIEW))
    by (apply (Hne 1%nat); [lia | reflexivity]).
  rewrite (decide_False (P := _ = EVENT_TYPE_LOCATION))
    by (apply (Hne 2%nat); [lia | reflexivity]).
  rewrite (decide_False (P := _ = EVENT_TYPE_MERCHANTORDER))
    by (apply (Hne 3%nat); [lia | reflexivity]).
  rewrite decide_True by reflexivity.
  now case_decide.
Qed.

(** *** The pool *)

Lemma unit_at_lookup s p u : units s !! p = Some u -> unit_at s p = u.
Proof. unfold unit_at. now intros ->. Qed.

Lemma NewHandler_pool_wf setting_ : pool_wf (NewHandler setting_).2.
Proof. constructor. Qed.

Lemma getBufferUnitFromPool_run s :
  getBufferUnitFromPool s =
  match bufferUnitPool s with
  | p :: rest =>
      (p, {| store := store s; units := units s; bufferUnitPool := rest |},
       [Acquire p])
  | [] =>
      let b := fresh (dom (store s)) in
      let p := fresh (dom (units s)) in
      (p,
       {| store := <[b := []]> (store s);
          units := <[p := {| signatureBuf := []; msgBuf := b;
                             msgRequest := Request.zero |}]> (units s);
          bufferUnitPool := [] |},
       [Acquire p])
  end.
Proof.
  unfold getBufferUnitFromPool.
  destruct (bufferUnitPool s) eqn:E; [|reflexivity].
  unfold mbind, M_bind, newBufferUnit, emit, mret, M_ret. cbn.
  now rewrite E.
Qed.

(** A unit taken from a clean pool is clean, and so is what stays. *)
Lemma getBufferUnitFromPool_clean s :
  pool_wf s ->
  let g := getBufferUnitFromPool s in
  clean (final g) (result g) /\ pool_wf (final g).
Proof.
  unfold pool_wf. rewrite getBufferUnitFromPool_run. intros Hwf.
  destruct (bufferUnitPool s) as [|p rest] eqn:E; cbn.
  - split; [|constructor].
    eexists. split; [apply lookup_insert_eq|].
    split; [apply lookup_insert_eq | reflexivity].
  - apply Forall_cons in Hwf as [Hp Hrest]. split; assumption.
Qed.

Lemma getBufferUnitFromPool_dom s l :
  l ∈ dom (store s) -> l ∈ dom (store (final (getBufferUnitFromPool s))).
Proof.
  rewrite getBufferUnitFromPool_run.
  destruct (bufferUnitPool s); cbn; [|auto].
  rewrite dom_insert. set_solver.
Qed.

Lemma frame_refl p s : frame p s s.
Proof. repeat split; auto. Qed.

(** Releasing after a body that respects the frame gives a clean pool
    again. *)
Lemma putBufferUnitToPool_wf p s1 s' :
  pool_wf s1 -> frame p s1 s' -> pool_wf (final (putBufferUnitToPool p s')).
Proof.
  unfold pool_wf. intros Hwf (Hpool & Hunits & Hstore). cbn.
  rewrite Hpool. constructor.
  - eexists. split; [apply lookup_insert_eq|].
    split; [apply lookup_insert_eq | reflexivity].
  - eapply Forall_impl; [exact Hwf|].
    intros q (uq & Hq & Hbuf & Hzero).
    destruct (decide (q = p)) as [->|Hne].
    + eexists. split; [apply lookup_insert_eq|].
      split; [apply lookup_insert_eq | reflexivity].
    + exists uq. cbn. rewrite lookup_insert_ne, Hunits, Hq by auto.
      repeat split; [|assumption].
      destruct (decide (msgBuf uq = msgBuf (unit_at s' p))) as [->|Hb].
      * apply lookup_insert_eq.
      * rewrite lookup_insert_ne by auto. now apply Hstore.
Qed.


(** What the default branch does to the state stays inside the frame. *)
Lemma unknownRequest_frame p body s :
  frame p s (final (unknownRequest body s)).
Proof.
  rewrite unknownRequest_run. cbn. split; [reflexivity|]. split; [auto|].
  intros l x Hl _. cbn.
  assert (l <> fresh (dom (store s))).
  { intros ->. apply (is_fresh (dom (store s))). apply elem_of_dom. eauto. }
  now rewrite !lookup_insert_ne by auto.
Qed.

Lemma requestRouter_frame p msgReq body s :
  frame p s (final (requestRouter msgReq body s)).
Proof.
  destruct (requestRouter_cases msgReq body s) as [-> | (c & _ & ->)].
  - apply unknownRequest_frame.
  - apply frame_refl.
Qed.

Lemma requestRouter_one_call msgReq body s :
  exists c, trace (requestRouter msgReq body s) = [Call c].
Proof.
  destruct (requestRouter_cases msgReq body s) as [-> | (c & _ & ->)]; eauto.
Qed.

Lemma frame_trans p s1 s2 s3 :
  msgBuf (unit_at s3 p) = msgBuf (unit_at s2 p) ->
  frame p s1 s2 -> frame p s2 s3 -> frame p s1 s3.
Proof.
  intros Hb (Hp1 & Hu1 & Hs1) (Hp2 & Hu2 & Hs2). repeat split.
  - congruence.
  - intros q Hq. rewrite Hu2, Hu1; auto.
  - intros l x Hl Hne. apply Hs2; [|assumption]. apply Hs1; congruence.
Qed.

Lemma requestRouter_units msgReq body s :
  units (final (requestRouter msgReq body s)) = units s.
Proof.
  destruct (requestRouter_cases msgReq body s) as [-> | (c & _ & ->)];
    reflexivity.
Qed.

(** *** Outcomes of the two branches *)

(** A POST request with its parameters takes a unit, checks the signature,
    makes one call and gives the unit back. *)
Lemma serve_POST_outcome h r s vals :
  http.Method r = "POST" -> extracted r vals ->
  let g := getBufferUnitFromPool s in
  exists s' c,
    ServeHTTP h r s =
    (tt, final (putBufferUnitToPool (result g) s'),
     [Acquire (result g);
      CheckSignature (url.Get vals "signature") (url.Get vals "timestamp")
        (url.Get vals "nonce") (Token (setting h));
      Call c; Release (result g)]) /\
    frame (result g) (final g) s'.
Proof.
  intros HM Hex g. rewrite (serve_POST_extracted h r s vals HM Hex).
  cbv zeta. fold g.
  set (p := result g). set (s1 := final g). set (u := unit_at s1 p).
  set (s2 := Build_State _ (units s1) _).
  set (d := xml.Unmarshal _ _).
  set (s3 := Build_State _ (<[p := _]> (units s1)) _).
  assert (F2 : frame p s1 s2).
  { split; [reflexivity|]. split; [reflexivity|].
    intros l x Hl Hne. cbn. now rewrite lookup_insert_ne by auto. }
  assert (F3 : frame p s1 s3).
  { split; [reflexivity|]. split.
    - intros q Hq. cbn. now rewrite lookup_insert_ne by auto.
    - intros l x Hl Hne. cbn. rewrite lookup_insert_ne; [assumption|].
      revert Hne. unfold unit_at. cbn. now rewrite lookup_insert_eq. }
  case_bool_decide; [|exists s1; eexists; split; [reflexivity|apply frame_refl]].
  destruct (io.fail (http.Body r)) as [e|];
    [exists s2; eexists; split; [reflexivity|assumption]|].
  destruct d.2 as [e|];
    [exists s3; eexists; split; [reflexivity|assumption]|].
  set (rt := requestRouter _ _ s3).
  destruct (requestRouter_one_call (msgRequest (unit_at s3 p))
              (Slice (msgBuf u) (length (contents (store s2) (msgBuf u)))) s3)
    as [c Hc].
  fold rt in Hc. exists (final rt), c. split.
  - unfold preceded. cbn [trace final snd fst]. rewrite Hc. reflexivity.
  - apply (frame_trans p s1 s3); [|assumption|apply requestRouter_frame].
    unfold unit_at. subst rt. now rewrite requestRouter_units.
Qed.

(** A GET request with its parameters takes a unit, checks the signature,
    answers or makes one call, and gives the unit back. *)
Lemma serve_GET_outcome h r s vals :
  http.Method r = "GET" -> extracted r vals ->
  let g := getBufferUnitFromPool s in
  exists x,
    ServeHTTP h r s =
    (tt, final (putBufferUnitToPool (result g) (final g)),
     [Acquire (result g);
      CheckSignature (url.Get vals "signature") (url.Get vals "timestamp")
        (url.Get vals "nonce") (Token (setting h));
      x; Release (result g)]) /\
    (verified h vals /\ x = WriteString (url.Get vals "echostr") \/
     ~ verified h vals /\
     x = Call (InvalidRequestHandler "check signature failed")).
Proof.
  intros HM Hex g. rewrite (serve_GET_extracted h r s vals HM Hex).
  cbv zeta. fold g. eexists. split; [reflexivity|].
  case_bool_decide; auto.
Qed.

(** The three ways a request can go. *)
Lemma serve_cases h r s :
  ServeHTTP h r s = (tt, s, []) /\
    http.Method r <> "POST" /\ http.Method r <> "GET" \/
  (exists e, ServeHTTP h r s = (tt, s, [Call (InvalidRequestHandler e)])) /\
    (forall vals, ~ extracted r vals) /\
    (http.Method r = "POST" \/ http.Method r = "GET") \/
  (exists vals s' x,
     let g := getBufferUnitFromPool s in
     extracted r vals /\
     ServeHTTP h r s =
     (tt, final (putBufferUnitToPool (result g) s'),
      [Acquire (result g);
       CheckSignature (url.Get vals "signature") (url.Get vals "timestamp")
         (url.Get vals "nonce") (Token (setting h));
       x; Release (result g)]) /\
     frame (result g) (final g) s' /\
     (http.Method r = "POST" /\ (exists c, x = Call c) \/
      http.Method r = "GET" /\
      (verified h vals /\ x = WriteString (url.Get vals "echostr") \/
       ~ verified h vals /\
       x = Call (InvalidRequestHandler "check signature failed")))).
Proof.
  destruct (decide (http.Method r = "POST")) as [HP|HP];
    [|destruct (decide (http.Method r = "GET")) as [HG|HG]].
  3:{ left. auto using serve_other_method. }
  all: right.
  all: destruct (query r) as [vals|] eqn:Hq.
  all: try (left; split; [apply serve_unextracted; [tauto|]|split; [|tauto]];
            intros vals' [Hq' _]; congruence).
  all: destruct (decide (Forall (fun key => url.Get vals key <> "")
                           (required (http.Method r)))) as [HF|HF].
  all: try (left; split; [apply serve_unextracted; [tauto|]|split; [|tauto]];
            intros vals' [Hq' HF']; apply HF;
            assert (vals' = vals) as <- by congruence; assumption).
  - right. destruct (serve_POST_outcome h r s vals HP (conj Hq HF))
      as (s' & c & Heq & Hfr).
    exists vals, s', (Call c). cbv zeta.
    split; [exact (conj Hq HF)|]. split; [exact Heq|]. split; [exact Hfr|].
    left. eauto.
  - right. destruct (serve_GET_outcome h r s vals HG (conj Hq HF))
      as (x & Heq & Hx).
    exists vals, (final (getBufferUnitFromPool s)), x. cbv zeta.
    split; [exact (conj Hq HF)|]. split; [exact Heq|].
    split; [apply frame_refl|]. right. auto.
Qed.

(** Serving a request keeps the pool clean. *)
Lemma ServeHTTP_pool_wf h r s :
  pool_wf s -> pool_wf (final (ServeHTTP h r s)).
Proof.
  intros Hwf.
  destruct (serve_cases h r s)
    as [[-> _] | [[[e ->] _] | (vals & s' & x & _ & -> & Hfr & _)]];
    try assumption.
  cbn [final fst snd].
  apply (putBufferUnitToPool_wf _ (final (getBufferUnitFromPool s)));
    [|assumption].
  now apply getBufferUnitFromPool_clean.
Qed.

Lemma serve_all_pool_wf h rs s :
  pool_wf s -> pool_wf (serve_all h rs s).
Proof.
  revert s. induction rs as [|r rs IH]; intros s Hwf; [assumption|].
  cbn. apply IH. now apply ServeHTTP_pool_wf.
Qed.

(** Every state a new handler gets to by serving requests has a clean
    pool. *)
Corollary served_pool_wf setting_ rs :
  pool_wf (serve_all (NewHandler setting_).1 rs (NewHandler setting_).2).
Proof. apply serve_all_pool_wf, NewHandler_pool_wf. Qed.

(** *** Methods and parameters *)

(** C9: a request whose method is neither GET nor POST leaves the handler
    without any effect: nothing is written to the response, no callback is
    invoked (not even [InvalidRequestHandler]), no unit is taken. *)
Theorem other_method_ignored h r s :
  http.Method r <> "GET" -> http.Method r <> "POST" ->
  ServeHTTP h r s = (tt, s, []) /\
  written (trace (ServeHTTP h r s)) = "" /\
  calls (trace (ServeHTTP h r s)) = [].
Proof.
  intros HG HP. rewrite serve_other_method by assumption. auto.
Qed.

Lemma Get_missing vals key : vals !! key = None -> url.Get vals key = "".
Proof. unfold url.Get. now intros ->. Qed.

Lemma params_query r vals : query r = Some vals -> params r = vals.
Proof. unfold params. now intros ->. Qed.

Lemma extracted_required r vals key :
  extracted r vals -> In key (required (http.Method r)) ->
  url.Get vals key <> "".
Proof.
  intros [_ HF] Hin. rewrite Forall_forall in HF. apply HF.
  now apply list_elem_of_In.
Qed.

(** C4: a GET or POST request that lacks one of the parameters its method
    asks for ([signature], [timestamp], [nonce], and [echostr] for GET) is
    handed to [InvalidRequestHandler]; that call is the only effect, so
    [checkSignature] is not called. *)
Theorem missing_parameter_invalid h r s key :
  http.Method r = "GET" \/ http.Method r = "POST" ->
  In key (required (http.Method r)) ->
  params r !! key = None ->
  (exists e, trace (ServeHTTP h r s) = [Call (InvalidRequestHandler e)]) /\
  (forall signature timestamp nonce token,
     ~ In (CheckSignature signature timestamp nonce token)
          (trace (ServeHTTP h r s))).
Proof.
  intros HM Hin Hmiss.
  destruct (serve_unextracted h r s) as [e He]; [tauto| |].
  - intros vals Hex. apply (extracted_required r vals key Hex Hin).
    apply Get_missing. destruct Hex as [Hq _].
    now rewrite <- (params_query r vals Hq).
  - rewrite He. split; [eauto|].
    intros ? ? ? ? [Hc|[]]. discriminate.
Qed.

Lemma Get_delete vals key k :
  url.Get vals key = "" -> url.Get (delete key vals) k = url.Get vals k.
Proof.
  intros Hk. unfold url.Get in *. destruct (decide (k = key)) as [->|Hne].
  - rewrite lookup_delete_eq. now rewrite Hk.
  - now rewrite lookup_delete_ne by auto.
Qed.

(** The handler sees the parameters only through [Get]: without a full
    set, two requests whose parameters read the same fare the same. *)
Lemma serve_unextracted_eq h r r' s vals vals' :
  http.Method r = "GET" \/ http.Method r = "POST" ->
  http.Method r' = http.Method r ->
  query r = Some vals -> query r' = Some vals' ->
  (forall k, url.Get vals' k = url.Get vals k) ->
  ~ extracted r vals ->
  ServeHTTP h r s = ServeHTTP h r' s.
Proof.
  intros HM HM' Hq Hq' Hget Hno.
  assert (HF : ~ Forall (fun key => url.Get vals key <> "")
                   (required (http.Method r))).
  { intros HF. apply Hno. now split. }
  apply query_Some in Hq as (u & HU & HP).
  apply query_Some in Hq' as (u' & HU' & HP').
  destruct HM as [HM|HM]; rewrite HM in HM', HF.
  - rewrite !serve_GET by assumption. unfold serveGET.
    rewrite HU, HU', HP, HP', !Hget.
    repeat (case_decide; [reflexivity|]).
    exfalso. apply HF. rewrite required_GET. repeat constructor; assumption.
  - rewrite !serve_POST by assumption. unfold servePOST.
    rewrite HU, HU', HP, HP', !Hget.
    repeat (case_decide; [reflexivity|]).
    exfalso. apply HF. rewrite required_POST. repeat constructor; assumption.
Qed.

(** C10: a required parameter that is present with an empty value is
    treated exactly as if it were absent: the request goes to
    [InvalidRequestHandler], and the handler does the same as on the
    request whose query lacks the parameter. *)
Theorem empty_parameter_as_missing h r r' s key vals :
  http.Method r = "GET" \/ http.Method r = "POST" ->
  In key (required (http.Method r)) ->
  query r = Some vals ->
  is_Some (vals !! key) -> url.Get vals key = "" ->
  http.Method r' = http.Method r ->
  query r' = Some (delete key vals) ->
  (exists e, trace (ServeHTTP h r s) = [Call (InvalidRequestHandler e)]) /\
  ServeHTTP h r s = ServeHTTP h r' s.
Proof.
  intros HM Hin Hq _ Hempty HM' Hq'.
  assert (Hno : forall vals', ~ extracted r vals').
  { intros vals' Hex. assert (vals' = vals) as ->.
    { destruct Hex as [Hq'' _]. congruence. }
    now apply (extracted_required r vals key Hex Hin). }
  split.
  - destruct (serve_unextracted h r s) as [e ->]; [tauto|assumption|eauto].
  - apply (serve_unextracted_eq h r r' s vals (delete key vals));
      auto using Get_delete.
Qed.

(** *** The handshake *)

(** C7: on a GET request with all four parameters there (non-empty), the
    handler writes [echostr], verbatim and nothing else, and invokes no
    callback when the signature verifies against the token; when it does
    not, [InvalidRequestHandler] is invoked and nothing is written. *)
Theorem handshake_echo h r s vals :
  http.Method r = "GET" -> extracted r vals ->
  let t := trace (ServeHTTP h r s) in
  (verified h vals ->
   written t = url.Get vals "echostr" /\ calls t = []) /\
  (~ verified h vals ->
   calls t = [InvalidRequestHandler "check signature failed"] /\
   written t = "").
Proof.
  intros HM Hex.
  destruct (serve_GET_outcome h r s vals HM Hex) as (x & -> & Hx).
  cbv zeta. cbn [trace snd].
  split; intros Hv; destruct Hx as [[Hv' ->] | [Hv' ->]]; try contradiction.
  - split; reflexivity.
  - split; reflexivity.
Qed.

(** *** Units and callbacks *)

(** Both branches take a unit once the parameters are there. *)
Lemma unit_acquired h r s vals :
  http.Method r = "POST" \/ http.Method r = "GET" ->
  extracted r vals ->
  In (Acquire (result (getBufferUnitFromPool s))) (trace (ServeHTTP h r s)).
Proof.
  intros HM Hex.
  destruct (serve_cases h r s)
    as [[_ [HP HG]] | [[_ [Hno _]] | (vals' & s' & x & _ & -> & _)]].
  - tauto.
  - now destruct (Hno vals).
  - left. reflexivity.
Qed.

(** C8: whenever a run of the handler takes a unit from the pool, giving it
    back is the last thing the run does, and the unit is idle again in the
    state the handler returns in; this covers every early return of both
    branches. *)
Theorem unit_released h r s p :
  In (Acquire p) (trace (ServeHTTP h r s)) ->
  last (trace (ServeHTTP h r s)) = Some (Release p) /\
  In p (bufferUnitPool (final (ServeHTTP h r s))).
Proof.
  destruct (serve_cases h r s)
    as [[-> _] | [[[e ->] _] | (vals & s' & x & _ & -> & _ & Hx)]];
    cbn [trace final fst snd].
  - intros [].
  - intros [H|[]]. discriminate.
  - intros [[= <-] | [H | [H | [H | []]]]]; try discriminate.
    + split; [reflexivity | now left].
    + exfalso. subst x.
      destruct Hx as [[_ [c Hc]] | [_ [[_ Hc] | [_ Hc]]]]; discriminate.
Qed.

Lemma accepted_handshake_iff h r vals :
  extracted r vals -> accepted_handshake h r <-> verified h vals.
Proof.
  intros Hex. split.
  - intros (vals' & Hex' & Hv).
    now rewrite (extracted_unique r vals vals' Hex Hex').
  - intros Hv. now exists vals.
Qed.

(** C5, as the code has it: a request leads to at most one callback.
    Exactly one is invoked for every POST request and for every GET request
    whose parameters or signature are turned down; none is invoked for a GET
    request whose handshake is accepted (the handler writes [echostr]
    itself) and none for a request of another method. *)
Theorem at_most_one_callback h r s :
  let cs := calls (trace (ServeHTTP h r s)) in
  (length cs <= 1)%nat /\
  (http.Method r = "POST" -> exists c, cs = [c]) /\
  (http.Method r = "GET" -> ~ accepted_handshake h r ->
   exists e, cs = [InvalidRequestHandler e]) /\
  (http.Method r = "GET" -> accepted_handshake h r -> cs = []) /\
  (http.Method r <> "POST" -> http.Method r <> "GET" -> cs = []).
Proof.
  cbv zeta.
  destruct (serve_cases h r s)
    as [[-> [HP HG]] | [[[e ->] [Hno HM]]
                       | (vals & s' & x & Hex & -> & _ & Hx)]];
    cbn [trace snd].
  - cbn. repeat split; auto; contradiction.
  - cbn. repeat split; eauto; [|tauto].
    intros _ (vals & Hex & _). now destruct (Hno vals).
  - pose proof (accepted_handshake_iff h r vals Hex) as Hacc.
    destruct Hx as [[HP [c ->]] | [HG [[Hv ->] | [Hv ->]]]]; cbn.
    + repeat split; eauto; rewrite HP; try discriminate; contradiction.
    + repeat split; eauto; try (rewrite HG; discriminate); tauto.
    + repeat split; eauto; try (rewrite HG; discriminate); tauto.
Qed.

(** *** Delivery *)


(** The POST branch on a clean pool, once the body has been read: the
    buffer holds exactly the body and the decode target starts from the
    zero envelope. *)
Lemma serve_POST_read h r s vals :
  pool_wf s -> http.Method r = "POST" -> extracted r vals ->
  verified h vals -> io.fail (http.Body r) = None ->
  ServeHTTP h r s =
  let g := getBufferUnitFromPool s in
  let p := result g in
  let s1 := final g in
  let u := unit_at s1 p in
  let data := io.data (http.Body r) in
  let d := xml.Unmarshal data Request.zero in
  let s3 :=
    {| store := <[msgBuf u := data]> (store s1);
       units := <[p := {| signatureBuf := signatureBuf u; msgBuf := msgBuf u;
                          msgRequest := d.1 |}]> (units s1);
       bufferUnitPool := bufferUnitPool s1 |} in
  let b :=
    match d.2 with
    | Some e => invoke (InvalidRequestHandler e) s3
    | None => requestRouter d.1 (Slice (msgBuf u) (length data)) s3
    end in
  (tt, final (putBufferUnitToPool p (final b)),
   Acquire p
   :: CheckSignature (url.Get vals "signature") (url.Get vals "timestamp")
        (url.Get vals "nonce") (Token (setting h))
   :: trace b ++ [Release p]).
Proof.
  intros Hwf HM Hex Hv Hread.
  rewrite (serve_POST_extracted h r s vals HM Hex). cbv zeta.
  destruct (getBufferUnitFromPool_clean s Hwf) as [(u & Hu & Hbuf & Hzero) _].
  rewrite (unit_at_lookup _ _ _ Hu).
  rewrite (bool_decide_eq_true_2 _ Hv), Hread.
  assert (Hempty : contents (store (final (getBufferUnitFromPool s)))
                     (msgBuf u) = []).
  { unfold contents. now rewrite Hbuf. }
  rewrite Hempty. cbn [app store].
  unfold slice_bytes. cbn [ptr len].
  rewrite !contents_insert_eq, firstn_all, Hzero.
  replace (unit_at _ (result (getBufferUnitFromPool s)))
    with {| signatureBuf := signatureBuf u; msgBuf := msgBuf u;
            msgRequest := (xml.Unmarshal (io.data (http.Body r))
                             Request.zero).1 |}
    by (unfold unit_at; cbn [units]; now rewrite lookup_insert_eq).
  cbn [msgRequest].
  destruct (xml.Unmarshal _ _).2; reflexivity.
Qed.

(** C6: on a POST request whose signature verifies, a failure to read the
    body or to decode it leads to [InvalidRequestHandler] with that error
    and to no other callback. *)
Theorem read_or_decode_failure_invalid h r s vals e :
  pool_wf s -> http.Method r = "POST" -> extracted r vals ->
  verified h vals ->
  io.fail (http.Body r) = Some e \/
  io.fail (http.Body r) = None /\
  (xml.Unmarshal (io.data (http.Body r)) Request.zero).2 = Some e ->
  calls (trace (ServeHTTP h r s)) = [InvalidRequestHandler e].
Proof.
  intros Hwf HM Hex Hv [Hread | [Hread Hdec]].
  - rewrite (serve_POST_extracted h r s vals HM Hex). cbv zeta.
    now rewrite (bool_decide_eq_true_2 _ Hv), Hread.
  - rewrite (serve_POST_read h r s vals Hwf HM Hex Hv Hread). cbv zeta.
    now rewrite Hdec.
Qed.

(** A delivered request on a clean pool runs the router on its envelope. *)
Lemma serve_delivered h r s msgReq :
  pool_wf s -> delivered h r msgReq ->
  exists vals,
  ServeHTTP h r s =
  let g := getBufferUnitFromPool s in
  let p := result g in
  let s1 := final g in
  let u := unit_at s1 p in
  let data := io.data (http.Body r) in
  let s3 :=
    {| store := <[msgBuf u := data]> (store s1);
       units := <[p := {| signatureBuf := signatureBuf u; msgBuf := msgBuf u;
                          msgRequest := msgReq |}]> (units s1);
       bufferUnitPool := bufferUnitPool s1 |} in
  let b := requestRouter msgReq (Slice (msgBuf u) (length data)) s3 in
  (tt, final (putBufferUnitToPool p (final b)),
   Acquire p
   :: CheckSignature (url.Get vals "signature") (url.Get vals "timestamp")
        (url.Get vals "nonce") (Token (setting h))
   :: trace b ++ [Release p]).
Proof.
  intros Hwf (HM & (vals & Hex & Hv) & Hread & Hdec). exists vals.
  rewrite (serve_POST_read h r s vals Hwf HM Hex Hv Hread). cbv zeta.
  now rewrite Hdec.
Qed.

(** C3: a delivered envelope with [MsgType] event and [Event] subscribe
    goes to [SubscribeEventHandler], with the head and the event only, when
    its [Ticket] is empty, and otherwise to [SubscribeByScanEventHandler]
    with [EventKey] and [Ticket] taken from the envelope. *)
Theorem subscribe_routing h r s msgReq :
  distinct_consts -> pool_wf s -> delivered h r msgReq ->
  Request.MsgType msgReq = MSG_TYPE_EVENT ->
  Request.Event msgReq = EVENT_TYPE_SUBSCRIBE ->
  let cs := calls (trace (ServeHTTP h r s)) in
  (Request.Ticket msgReq = "" ->
   cs = [SubscribeEventHandler
           {| SubscribeEvent.CommonHead := Request.CommonHead msgReq;
              SubscribeEvent.Event := Request.Event msgReq |}]) /\
  (Request.Ticket msgReq <> "" ->
   cs = [SubscribeByScanEventHandler
           {| SubscribeByScanEvent.CommonHead := Request.CommonHead msgReq;
              SubscribeByScanEvent.Event := Request.Event msgReq;
              SubscribeByScanEvent.EventKey := Request.EventKey msgReq;
              SubscribeByScanEvent.Ticket := Request.Ticket msgReq |}]).
Proof.
  intros Hd Hwf Hdel Hty Hev.
  destruct (serve_delivered h r s msgReq Hwf Hdel) as [vals ->]. cbv zeta.
  rewrite requestRouter_event by auto using distinct_text_event.
  rewrite eventRouter_subscribe by assumption.
  cbn [trace snd]. split; intros Ht.
  - now rewrite decide_True.
  - now rewrite decide_False.
Qed.

(** C2: a delivered envelope that fits no case of the two switches goes to
    [UnknownRequestHandler] and to no other callback.  The slice the
    handler is given shows, when the call is made, exactly the bytes of the
    body; its array did not exist before the request and is not the buffer
    of the pooled unit, which is empty again when the handler returns
    while the copy still holds the body. *)
Theorem unknown_request_copy h r s msgReq :
  distinct_consts -> pool_wf s -> delivered h r msgReq ->
  unrecognized msgReq ->
  exists p msg,
    let out := ServeHTTP h r s in
    calls (trace out) = [UnknownRequestHandler msg (io.data (http.Body r))] /\
    In (Acquire p) (trace out) /\
    slice_bytes (store (final out)) msg = io.data (http.Body r) /\
    len msg = length (io.data (http.Body r)) /\
    (ptr msg ∉ dom (store s)) /\
    ptr msg <> msgBuf (unit_at (final out) p) /\
    contents (store (final out)) (msgBuf (unit_at (final out) p)) = [].
Proof.
  intros Hd Hwf Hdel Hun.
  destruct (serve_delivered h r s msgReq Hwf Hdel) as [vals ->]. cbv zeta.
  rewrite requestRouter_unrecognized by assumption.
  set (g := getBufferUnitFromPool s). set (p := result g).
  set (u := unit_at (final g) p). set (data := io.data (http.Body r)).
  set (s3 := Build_State _ _ _).
  set (body := Slice (msgBuf u) (length data)).
  assert (Hbody : contents (store s3) (ptr body) = data)
    by apply contents_insert_eq.
  assert (Hdom : forall l, l ∈ dom (store s) -> l ∈ dom (store s3)).
  { intros l Hl. subst s3. cbn [store]. rewrite dom_insert.
    apply elem_of_union_r. now apply getBufferUnitFromPool_dom. }
  destruct (unknownRequest_copy body s3) as (Ht & Hfresh & Hne & Hbytes & _).
  { subst s3. cbn [store ptr body]. rewrite dom_insert. set_solver. }
  { now rewrite Hbody. }
  rewrite Hbody in Ht, Hbytes.
  assert (Hu : msgBuf (unit_at (final (unknownRequest body s3)) p)
               = msgBuf u).
  { rewrite unknownRequest_run. unfold unit_at. cbn [final fst snd units].
    subst s3. cbn [units]. now rewrite lookup_insert_eq. }
  assert (Hu' : msgBuf (unit_at
                  (final (putBufferUnitToPool p
                            (final (unknownRequest body s3)))) p)
                = msgBuf u).
  { unfold unit_at at 1. cbn [final putBufferUnitToPool fst snd units].
    rewrite lookup_insert_eq. cbn [default msgBuf]. exact Hu. }
  exists p, (Slice (fresh (dom (store s3))) (len body)).
  repeat match goal with
         | |- context [final (?a, ?s0, ?t)] =>
             change (final (a, s0, t)) with s0
         | |- context [trace (?a, ?s0, ?t)] =>
             change (trace (a, s0, t)) with t
         end.
  rewrite Ht, Hu'.
  cbn [final putBufferUnitToPool fst snd store]. rewrite Hu.
  cbn [ptr len body] in *.
  repeat split.
  - now left.
  - unfold slice_bytes in *. cbn [ptr len] in *.
    now rewrite contents_insert_ne by congruence.
  - intros Hin. apply Hfresh. now apply Hdom.
  - assumption.
  - apply contents_insert_eq.
Qed.

(** *** The routes, one by one *)

(** Pairwise different case constants, spelled out. *)
Ltac spell_distinct Hd :=
  let Hm := fresh "Hm" in
  let He := fresh "He" in
  pose proof Hd as [Hm He];
  unfold message_types in Hm; unfold event_types in He;
  rewrite !NoDup_cons, !not_elem_of_cons in Hm;
  rewrite !NoDup_cons, !not_elem_of_cons in He;
  destruct_and!.

(** Walking down a switch to the case that matches. *)
Ltac walk_switch :=
  repeat (case_decide; [first [reflexivity | congruence] | try congruence]).

(** The callback of a request is the one its envelope is routed to. *)
Lemma delivered_calls h r s msgReq c :
  pool_wf s -> delivered h r msgReq ->
  (forall body s', requestRouter msgReq body s' = (tt, s', [Call c])) ->
  calls (trace (ServeHTTP h r s)) = [c].
Proof.
  intros Hwf Hdel Hroute.
  destruct (serve_delivered h r s msgReq Hwf Hdel) as [vals ->]. cbv zeta.
  now rewrite Hroute.
Qed.

(** X1: a text message goes to [TextRequestHandler] with the head, [MsgId] and
    [Content] of the envelope; being the first case of the switch, it wins
    whatever the other constants are. *)
Theorem text_routing h r s msgReq :
  pool_wf s -> delivered h r msgReq ->
  Request.MsgType msgReq = MSG_TYPE_TEXT ->
  calls (trace (ServeHTTP h r s)) =
  [TextRequestHandler
     {| Text.CommonHead := Request.CommonHead msgReq;
        Text.MsgId := Request.MsgId msgReq;
        Text.Content := Request.Content msgReq |}].
Proof.
  intros Hwf Hdel Hty. apply (delivered_calls h r s msgReq); try assumption.
  intros body s'. unfold requestRouter. now rewrite decide_True.
Qed.

(** X2: the other message types: each goes to its own handler with the head,
    [MsgId] and the fields of its shape, copied from the envelope. *)
Theorem message_routing h r s msgReq :
  distinct_consts -> pool_wf s -> delivered h r msgReq ->
  let cs := calls (trace (ServeHTTP h r s)) in
  (Request.MsgType msgReq = MSG_TYPE_LINK ->
   cs = [LinkRequestHandler
           {| Link.CommonHead := Request.CommonHead msgReq;
              Link.MsgId := Request.MsgId msgReq;
              Link.Title := Request.Title msgReq;
              Link.Description := Request.Description msgReq;
              Link.URL := Request.URL msgReq |}]) /\
  (Request.MsgType msgReq = MSG_TYPE_VOICE ->
   cs = [VoiceRequestHandler
           {| Voice.CommonHead := Request.CommonHead msgReq;
              Voice.MsgId := Request.MsgId msgReq;
              Voice.MediaId := Request.MediaId msgReq;
              Voice.Format := Request.Format msgReq;
              Voice.Recognition := Request.Recognition msgReq |}]) /\
  (Request.MsgType msgReq = MSG_TYPE_LOCATION ->
   cs = [LocationRequestHandler
           {| Location.CommonHead := Request.CommonHead msgReq;
              Location.MsgId := Request.MsgId msgReq;
              Location.LocationX := Request.LocationX msgReq;
              Location.LocationY := Request.LocationY msgReq;
              Location.Scale := Request.Scale msgReq;
              Location.Label := Request.Label msgReq |}]) /\
  (Request.MsgType msgReq = MSG_TYPE_IMAGE ->
   cs = [ImageRequestHandler
           {| Image.CommonHead := Request.CommonHead msgReq;
              Image.MsgId := Request.MsgId msgReq;
              Image.MediaId := Request.MediaId msgReq;
              Image.PicURL := Request.PicURL msgReq |}]) /\
  (Request.MsgType msgReq = MSG_TYPE_VIDEO ->
   cs = [VideoRequestHandler
           {| Video.CommonHead := Request.CommonHead msgReq;
              Video.MsgId := Request.MsgId msgReq;
              Video.MediaId := Request.MediaId msgReq;
              Video.ThumbMediaId := Request.ThumbMediaId msgReq |}]).
Proof.
  intros Hd Hwf Hdel. cbv zeta. spell_distinct Hd.
  repeat split; intros Hty;
    (apply (delivered_calls h r s msgReq); [assumption..|]);
    intros body s'; unfold requestRouter; rewrite Hty; walk_switch.
Qed.

(** X3: the events of the inner switch other than subscriptions and the mass
    send report: each goes to its own handler with the head, [Event] and
    the fields of its shape, copied from the envelope. *)
Theorem event_routing h r s msgReq :
  distinct_consts -> pool_wf s -> delivered h r msgReq ->
  Request.MsgType msgReq = MSG_TYPE_EVENT ->
  let cs := calls (trace (ServeHTTP h r s)) in
  (Request.Event msgReq = EVENT_TYPE_CLICK ->
   cs = [MenuClickEventHandler
           {| MenuClickEvent.CommonHead := Request.CommonHead msgReq;
              MenuClickEvent.Event := Request.Event msgReq;
              MenuClickEvent.EventKey := Request.EventKey msgReq |}]) /\
  (Request.Event msgReq = EVENT_TYPE_VIEW ->
   cs = [MenuViewEventHandler
           {| MenuViewEvent.CommonHead := Request.CommonHead msgReq;
              MenuViewEvent.Event := Request.Event msgReq;
              MenuViewEvent.EventKey := Request.EventKey msgReq |}]) /\
  (Request.Event msgReq = EVENT_TYPE_LOCATION ->
   cs = [LocationEventHandler
           {| LocationEvent.CommonHead := Request.CommonHead msgReq;
              LocationEvent.Event := Request.Event msgReq;
              LocationEvent.Latitude := Request.Latitude msgReq;
              LocationEvent.Longitude := Request.Longitude msgReq;
              LocationEvent.Precision := Request.Precision msgReq |}]) /\
  (Request.Event msgReq = EVENT_TYPE_MERCHANTORDER ->
   cs = [MerchantOrderEventHandler
           {| MerchantOrderEvent.CommonHead := Request.CommonHead msgReq;
              MerchantOrderEvent.Event := Request.Event msgReq;
              MerchantOrderEvent.OrderId := Request.OrderId msgReq;
              MerchantOrderEvent.OrderStatus := Request.OrderStatus msgReq;
              MerchantOrderEvent.ProductId := Request.ProductId msgReq;
              MerchantOrderEvent.SkuInfo := Request.SkuInfo msgReq |}]) /\
  (Request.Event msgReq = EVENT_TYPE_UNSUBSCRIBE ->
   cs = [UnsubscribeEventHandler
           {| UnsubscribeEvent.CommonHead := Request.CommonHead msgReq;
              UnsubscribeEvent.Event := Request.Event msgReq |}]) /\
  (Request.Event msgReq = EVENT_TYPE_SCAN ->
   cs = [ScanEventHandler
           {| ScanEvent.CommonHead := Request.CommonHead msgReq;
              ScanEvent.Event := Request.Event msgReq;
              ScanEvent.EventKey := Request.EventKey msgReq;
              ScanEvent.Ticket := Request.Ticket msgReq |}]).
Proof.
  intros Hd Hwf Hdel Hty. cbv zeta.
  pose proof (distinct_text_event Hd) as Hte. spell_distinct Hd.
  repeat split; intros Hev;
    (apply (delivered_calls h r s msgReq); [assumption..|]);
    intros body s'; rewrite requestRouter_event by assumption;
    unfold eventRouter; rewrite Hev; walk_switch.
Qed.

(** X4: the report of a mass send: the [MsgId] handed to the handler is the
    envelope's [MsgID] (the element the platform spells with a capital D),
    not its [MsgId]; the counters are copied as they are. *)
Theorem mass_send_job_finish_routing h r s msgReq :
  distinct_consts -> pool_wf s -> delivered h r msgReq ->
  Request.MsgType msgReq = MSG_TYPE_EVENT ->
  Request.Event msgReq = EVENT_TYPE_MASSSENDJOBFINISH ->
  exists event,
    calls (trace (ServeHTTP h r s)) = [MassSendJobFinishEventHandler event] /\
    MassSendJobFinishEvent.MsgId event = Request.MsgID msgReq /\
    MassSendJobFinishEvent.CommonHead event = Request.CommonHead msgReq /\
    MassSendJobFinishEvent.Event event = Request.Event msgReq /\
    MassSendJobFinishEvent.Status event = Request.Status msgReq /\
    MassSendJobFinishEvent.TotalCount event = Request.TotalCount msgReq /\
    MassSendJobFinishEvent.FilterCount event = Request.FilterCount msgReq /\
    MassSendJobFinishEvent.SentCount event = Request.SentCount msgReq /\
    MassSendJobFinishEvent.ErrorCount event = Request.ErrorCount msgReq.
Proof.
  intros Hd Hwf Hdel Hty Hev.
  pose proof (distinct_text_event Hd) as Hte. spell_distinct Hd.
  exists
    {| MassSendJobFinishEvent.CommonHead := Request.CommonHead msgReq;
       MassSendJobFinishEvent.Event := Request.Event msgReq;
       MassSendJobFinishEvent.MsgId := Request.MsgID msgReq;
       MassSendJobFinishEvent.Status := Request.Status msgReq;
       MassSendJobFinishEvent.TotalCount := Request.TotalCount msgReq;
       MassSendJobFinishEvent.FilterCount := Request.FilterCount msgReq;
       MassSendJobFinishEvent.SentCount := Request.SentCount msgReq;
       MassSendJobFinishEvent.ErrorCount := Request.ErrorCount msgReq |}.
  split; [|cbn; repeat split; reflexivity].
  apply (delivered_calls h r s msgReq); [assumption..|].
  intros body s'. rewrite requestRouter_event by assumption.
  unfold eventRouter. rewrite Hev. walk_switch.
Qed.

(** *** Which envelopes reach the default branches *)

(** The route of an envelope does not depend on the body or the state. *)
Lemma requestRouter_uniform msgReq :
  (forall body s, requestRouter msgReq body s = unknownRequest body s) \/
  exists c, typed c = true /\
            forall body s, requestRouter msgReq body s = (tt, s, [Call c]).
Proof.
  unfold requestRouter, eventRouter.
  repeat (case_decide;
          [right; eexists; split; [|intros; apply invoke_run]; reflexivity|]).
  case_decide.
  - repeat (case_decide;
            [right; eexists; split; [|intros; apply invoke_run]; reflexivity|]).
    case_decide.
    + case_decide; right; eexists; (split; [|intros; apply invoke_run]);
        reflexivity.
    + repeat (case_decide;
              [right; eexists; split; [|intros; apply invoke_run];
               reflexivity|]).
      now left.
  - repeat (case_decide;
            [right; eexists; split; [|intros; apply invoke_run]; reflexivity|]).
    now left.
Qed.

(** X5: on a delivered request [UnknownRequestHandler] is invoked exactly when
    the envelope fits no case of the two switches; an envelope that fits
    one is never handed over raw. *)
Theorem unknown_iff_unrecognized h r s msgReq :
  distinct_consts -> pool_wf s -> delivered h r msgReq ->
  (exists msg bytes,
     calls (trace (ServeHTTP h r s)) = [UnknownRequestHandler msg bytes])
  <-> unrecognized msgReq.
Proof.
  intros Hd Hwf Hdel. split.
  - intros (msg & bytes & Hmsg).
    destruct (requestRouter_uniform msgReq) as [Hun | (c & Hc & Hroute)].
    + specialize (Hun (Slice 1%positive 0)
                      {| store := ∅; units := ∅; bufferUnitPool := [] |}).
      revert Hun. unfold requestRouter, eventRouter, unrecognized.
      unfold message_types, event_types. rewrite unknownRequest_run.
      repeat (case_decide; [rewrite invoke_run; discriminate|]).
      case_decide.
      * repeat (case_decide; [rewrite invoke_run; discriminate|]).
        case_decide; [case_decide; rewrite invoke_run; discriminate|].
        repeat (case_decide; [rewrite invoke_run; discriminate|]).
        intros _. right. split; [assumption|]. cbn. intuition congruence.
      * repeat (case_decide; [rewrite invoke_run; discriminate|]).
        intros _. left. cbn. intuition congruence.
    + rewrite (delivered_calls h r s msgReq c Hwf Hdel Hroute) in Hmsg.
      injection Hmsg as ->. discriminate.
  - intros Hun.
    destruct (serve_delivered h r s msgReq Hwf Hdel) as [vals ->]. cbv zeta.
    rewrite requestRouter_unrecognized by assumption.
    rewrite unknownRequest_run. cbv zeta. cbn [trace snd]. eauto.
Qed.

(** *** Rejections before a unit is taken *)

(** X6: the parameters are looked at in the order [signature], [timestamp],
    [nonce] (and [echostr] for GET), and the first one that is missing or
    empty is the one reported; nothing else happens, whatever the later
    parameters are. *)
Theorem first_empty_parameter_reported h r s vals pre key post :
  http.Method r = "GET" \/ http.Method r = "POST" ->
  query r = Some vals ->
  required (http.Method r) = pre ++ key :: post ->
  Forall (fun k => url.Get vals k <> "") pre ->
  url.Get vals key = "" ->
  ServeHTTP h r s =
  (tt, s, [Call (InvalidRequestHandler (key +:+ " is empty"))]).
Proof.
  intros HM (u & HU & HP)%query_Some Hreq Hpre Hkey.
  destruct HM as [HM|HM]; rewrite HM in Hreq.
  - rewrite serve_GET by assumption. unfold serveGET. rewrite HU, HP.
    rewrite required_GET in Hreq.
    destruct pre as [|k1 [|k2 [|k3 [|k4 pre]]]]; simplify_eq/=;
      repeat match goal with
             | H : Forall _ (_ :: _) |- _ => apply Forall_cons in H as [? H]
             end;
      try (now destruct pre);
      rewrite ?decide_False by assumption; now rewrite decide_True.
  - rewrite serve_POST by assumption. unfold servePOST. rewrite HU, HP.
    rewrite required_POST in Hreq.
    destruct pre as [|k1 [|k2 [|k3 pre]]]; simplify_eq/=;
      repeat match goal with
             | H : Forall _ (_ :: _) |- _ => apply Forall_cons in H as [? H]
             end;
      try (now destruct pre);
      rewrite ?decide_False by assumption; now rewrite decide_True.
Qed.

(** X7: an error of [url.ParseQuery] is handed to [InvalidRequestHandler] as it
    is and ends the request, even when the values that were parsed are
    complete: no parameter is looked at, no unit is taken, no signature is
    checked. *)
Theorem query_error_passed_on h r s u vals e :
  http.Method r = "GET" \/ http.Method r = "POST" ->
  http.URL r = Some u ->
  url.ParseQuery (url.RawQuery u) = (vals, Some e) ->
  ServeHTTP h r s = (tt, s, [Call (InvalidRequestHandler e)]).
Proof.
  intros [HM|HM] HU HP.
  - rewrite serve_GET by assumption. unfold serveGET. now rewrite HU, HP.
  - rewrite serve_POST by assumption. unfold servePOST. now rewrite HU, HP.
Qed.

(** *** What the handler reads of a request *)

Lemma verified_Get h vals vals' :
  url.Get vals' "signature" = url.Get vals "signature" ->
  url.Get vals' "timestamp" = url.Get vals "timestamp" ->
  url.Get vals' "nonce" = url.Get vals "nonce" ->
  verified h vals' <-> verified h vals.
Proof. unfold verified. now intros -> -> ->. Qed.


(** *** What a run looks like *)

(** X9: the handler writes to the response on one path only, the accepted
    handshake: on every POST request and on every request it turns down,
    what reaches the response is up to the callback. *)
Theorem nothing_written_unless_accepted h r s :
  ~ (http.Method r = "GET" /\ accepted_handshake h r) ->
  written (trace (ServeHTTP h r s)) = "".
Proof.
  intros Hno.
  destruct (serve_cases h r s)
    as [[-> _] | [[[e ->] _] | (vals & s' & x & Hex & -> & _ & Hx)]];
    try reflexivity.
  cbn [trace snd].
  destruct Hx as [[_ [c ->]] | [HG [[Hv ->] | [_ ->]]]]; try reflexivity.
  exfalso. apply Hno. split; [assumption|]. now exists vals.
Qed.

(** X10: every run has one of three shapes: no effect at all (a method other
    than GET and POST); a single call of [InvalidRequestHandler]
    (parameters not all there); or: a unit is taken, the signature is
    checked once, on the first values of the parameters and the handler's
    token, then one callback is invoked or [echostr] is written, and the
    unit is given back last. *)
Theorem run_shape h r s :
  let t := trace (ServeHTTP h r s) in
  (t = [] /\ http.Method r <> "POST" /\ http.Method r <> "GET") \/
  ((exists e, t = [Call (InvalidRequestHandler e)]) /\
   (forall vals, ~ extracted r vals)) \/
  (exists p vals x,
     extracted r vals /\
     t = [Acquire p;
          CheckSignature (url.Get vals "signature") (url.Get vals "timestamp")
            (url.Get vals "nonce") (Token (setting h));
          x; Release p] /\
     ((exists c, x = Call c) \/
      http.Method r = "GET" /\ x = WriteString (url.Get vals "echostr"))).
Proof.
  cbv zeta.
  destruct (serve_cases h r s)
    as [[-> HM] | [[[e ->] [Hno _]] | (vals & s' & x & Hex & -> & _ & Hx)]].
  - left. auto.
  - right. left. eauto.
  - right. right. exists (result (getBufferUnitFromPool s)), vals, x.
    split; [assumption|]. split; [reflexivity|].
    destruct Hx as [[_ Hc] | [HG [[_ ->] | [_ ->]]]]; eauto.
Qed.

(** *** One request does not show in the next *)

(** The error of a request without a full set of parameters does not
    depend on the state. *)
Lemma serve_unextracted_uniform h r :
  http.Method r = "POST" \/ http.Method r = "GET" ->
  (forall vals, ~ extracted r vals) ->
  exists e, forall s,
    ServeHTTP h r s = (tt, s, [Call (InvalidRequestHandler e)]).
Proof.
  intros HM Hno.
  assert (Hq : forall vals, query r = Some vals ->
             ~ Forall (fun key => url.Get vals key <> "")
                 (required (http.Method r))).
  { intros vals Hq HF. now apply (Hno vals). }
  clear Hno. unfold query in Hq.
  destruct HM as [HM|HM]; rewrite HM in Hq.
  - rewrite serve_POST by assumption. unfold servePOST.
    destruct (http.URL r) as [u|]; [|eexists; intros; reflexivity].
    destruct (url.ParseQuery (url.RawQuery u)) as [vals [e|]];
      [eexists; intros; reflexivity|].
    repeat (case_decide; [eexists; intros; reflexivity|]).
    exfalso. apply (Hq vals eq_refl). rewrite required_POST.
    repeat constructor; assumption.
  - rewrite serve_GET by assumption. unfold serveGET.
    destruct (http.URL r) as [u|]; [|eexists; intros; reflexivity].
    destruct (url.ParseQuery (url.RawQuery u)) as [vals [e|]];
      [eexists; intros; reflexivity|].
    repeat (case_decide; [eexists; intros; reflexivity|]).
    exfalso. apply (Hq vals eq_refl). rewrite required_GET.
    repeat constructor; assumption.
Qed.

(** The callback of a POST request whose parameters are there, as far as it
    does not hang on the state. *)
Lemma serve_POST_calls h r s vals :
  pool_wf s -> http.Method r = "POST" -> extracted r vals ->
  let d := xml.Unmarshal (io.data (http.Body r)) Request.zero in
  let cs := calls (trace (ServeHTTP h r s)) in
  (~ verified h vals ->
   cs = [InvalidRequestHandler "check signature failed"]) /\
  (verified h vals -> forall e, io.fail (http.Body r) = Some e ->
   cs = [InvalidRequestHandler e]) /\
  (verified h vals -> io.fail (http.Body r) = None ->
   forall e, d.2 = Some e -> cs = [InvalidRequestHandler e]) /\
  (verified h vals -> io.fail (http.Body r) = None -> d.2 = None ->
   forall c,
     (forall body s', requestRouter d.1 body s' = (tt, s', [Call c])) ->
     cs = [c]) /\
  (verified h vals -> io.fail (http.Body r) = None -> d.2 = None ->
   (forall body s', requestRouter d.1 body s' = unknownRequest body s') ->
   exists msg,
     cs = [UnknownRequestHandler msg (io.data (http.Body r))] /\
     slice_bytes (store (final (ServeHTTP h r s))) msg = io.data (http.Body r)).
Proof.
  intros Hwf HM Hex. cbv zeta. repeat split.
  - intros Hv. rewrite (serve_POST_extracted h r s vals HM Hex). cbv zeta.
    now rewrite (bool_decide_eq_false_2 _ Hv).
  - intros Hv e Hread.
    rewrite (serve_POST_extracted h r s vals HM Hex). cbv zeta.
    now rewrite (bool_decide_eq_true_2 _ Hv), Hread.
  - intros Hv Hread e Hdec.
    rewrite (serve_POST_read h r s vals Hwf HM Hex Hv Hread). cbv zeta.
    now rewrite Hdec.
  - intros Hv Hread Hdec c Hroute.
    rewrite (serve_POST_read h r s vals Hwf HM Hex Hv Hread). cbv zeta.
    now rewrite Hdec, Hroute.
  - intros Hv Hread Hdec Hroute.
    rewrite (serve_POST_read h r s vals Hwf HM Hex Hv Hread). cbv zeta.
    rewrite Hdec, Hroute.
    set (g := getBufferUnitFromPool s). set (p := result g).
    set (u := unit_at (final g) p). set (data := io.data (http.Body r)).
    set (s3 := Build_State _ _ _).
    set (body := Slice (msgBuf u) (length data)).
    assert (Hbody : contents (store s3) (ptr body) = data)
      by apply contents_insert_eq.
    destruct (unknownRequest_copy body s3) as (Ht & _ & Hne & Hbytes & _).
    { subst s3. cbn [store ptr body]. rewrite dom_insert. set_solver. }
    { now rewrite Hbody. }
    rewrite Hbody in Ht, Hbytes. rewrite Ht.
    eexists. split; [reflexivity|].
    cbn [final putBufferUnitToPool fst snd store].
    assert (Hu : msgBuf (unit_at (final (unknownRequest body s3)) p)
                 = msgBuf u).
    { rewrite unknownRequest_run. unfold unit_at. cbn [final fst snd units].
      subst s3. cbn [units]. now rewrite lookup_insert_eq. }
    rewrite Hu. unfold slice_bytes in *. cbn [ptr len] in *.
    now rewrite contents_insert_ne by (cbn [ptr body] in Hne; congruence).
Qed.

(** X11: what a request leads to does not depend on what was served before:
    from any two states whose idle units are clean, the same request leads
    to the same callbacks with the same arguments, except that
    [UnknownRequestHandler] gets a slice at a location of its own, which
    shows the same bytes, when the call is made and when the handler
    returns. *)
Theorem callbacks_state_independent h r s s' :
  pool_wf s -> pool_wf s' ->
  let out := ServeHTTP h r s in
  let out' := ServeHTTP h r s' in
  calls (trace out) = calls (trace out') \/
  exists msg msg' bytes,
    calls (trace out) = [UnknownRequestHandler msg bytes] /\
    calls (trace out') = [UnknownRequestHandler msg' bytes] /\
    slice_bytes (store (final out)) msg = slice_bytes (store (final out')) msg'.
Proof.
  intros Hwf Hwf'. cbv zeta.
  destruct (serve_cases h r s)
    as [[_ [HP HG]] | [[_ [Hno HM]] | (vals & s0 & x & Hex & _ & _ & Hx)]].
  - left. now rewrite !serve_other_method by assumption.
  - left. destruct (serve_unextracted_uniform h r HM Hno) as [e He].
    now rewrite !He.
  - assert (HM : http.Method r = "POST" \/ http.Method r = "GET")
      by (destruct Hx as [[? _] | [? _]]; auto).
    clear Hx. destruct HM as [HM|HM].
    + pose proof (serve_POST_calls h r s vals Hwf HM Hex) as H1.
      pose proof (serve_POST_calls h r s' vals Hwf' HM Hex) as H2.
      cbv zeta in H1, H2.
      destruct H1 as (A1 & B1 & C1 & D1 & E1).
      destruct H2 as (A2 & B2 & C2 & D2 & E2).
      destruct (decide (verified h vals)) as [Hv|Hv];
        [|left; now rewrite A1, A2].
      destruct (io.fail (http.Body r)) as [e|] eqn:Hread;
        [left; now rewrite (B1 Hv e), (B2 Hv e)|].
      destruct (xml.Unmarshal (io.data (http.Body r)) Request.zero).2
        as [e|] eqn:Hdec;
        [left; now rewrite (C1 Hv eq_refl e), (C2 Hv eq_refl e)|].
      destruct (requestRouter_uniform
                  (xml.Unmarshal (io.data (http.Body r)) Request.zero).1)
        as [Hun | (c & _ & Hroute)].
      * right.
        destruct (E1 Hv eq_refl eq_refl Hun) as (msg & Hc & Hb).
        destruct (E2 Hv eq_refl eq_refl Hun) as (msg' & Hc' & Hb').
        exists msg, msg', (io.data (http.Body r)). now rewrite Hb, Hb'.
      * left. now rewrite (D1 Hv eq_refl eq_refl c Hroute),
                          (D2 Hv eq_refl eq_refl c Hroute).
    + left.
      destruct (serve_GET_outcome h r s vals HM Hex) as (y & -> & Hx).
      destruct (serve_GET_outcome h r s' vals HM Hex) as (y' & -> & Hx').
      cbn [trace snd].
      destruct Hx as [[Hv ->] | [Hv ->]], Hx' as [[Hv' ->] | [Hv' ->]];
        try contradiction; reflexivity.
Qed.

(** X12: no request reaches a typed handler or [UnknownRequestHandler] without
    being a POST request whose parameters are there, whose signature
    verifies and whose body was read to the end: every other request ends
    in [InvalidRequestHandler] or in no callback at all. *)
Theorem dispatch_needs_verification h r s c :
  In (Call c) (trace (ServeHTTP h r s)) ->
  (forall e, c <> InvalidRequestHandler e) ->
  http.Method r = "POST" /\
  io.fail (http.Body r) = None /\
  exists vals, extracted r vals /\ verified h vals.
Proof.
  intros Hin Hc.
  destruct (serve_cases h r s)
    as [[Heq _] | [[[e Heq] _] | (vals & s0 & x & Hex & Heq & _ & Hx)]].
  - rewrite Heq in Hin. destruct Hin.
  - rewrite Heq in Hin. destruct Hin as [[= <-] | []]. now destruct (Hc e).
  - destruct Hx as [[HP _] | [HG Hx]].
    + clear Heq. split; [assumption|].
      rewrite (serve_POST_extracted h r s vals HP Hex) in Hin.
      cbv zeta in Hin. revert Hin.
      case_bool_decide as Hv.
      * destruct (io.fail (http.Body r)) as [e|].
        -- intros [H | [H | [[= <-] | [H | []]]]]; try discriminate.
           now destruct (Hc e).
        -- intros _. split; [reflexivity|]. now exists vals.
      * intros [H | [H | [[= <-] | [H | []]]]]; try discriminate.
        now destruct (Hc "check signature failed").
    + rewrite Heq in Hin. cbn [trace snd] in Hin.
      destruct Hx as [[_ ->] | [_ ->]];
        destruct Hin as [H | [H | [H | [H | []]]]]; try discriminate.
      injection H as <-. now destruct (Hc "check signature failed").
Qed.

End Properties.

(** * The handler at work on concrete requests *)

Section Witnesses.

Import Examples.

Lemma start_pool_wf : pool_wf start.
Proof. constructor. Defined.

Lemma wire_distinct : distinct_consts (K := Platform.wire).
Proof. split; apply (bool_decide_unpack _); vm_compute; exact I. Defined.

Lemma extracted_values r :
  query (P := Platform.parser) r = Some (values r) ->
  Forall (fun key => bool_decide (url.Get (values r) key <> "") = true)
    (required (http.Method r)) ->
  extracted (P := Platform.parser) r (values r).
Proof.
  intros Hq HF. split; [assumption|].
  eapply Forall_impl; [exact HF|]. intros key Hk.
  now apply bool_decide_eq_true_1 in Hk.
Defined.

Lemma handshake_extracted :
  extracted (P := Platform.parser) handshake (values handshake).
Proof.
  apply extracted_values; [vm_compute; reflexivity|].
  repeat constructor.
Defined.

Lemma push_extracted doc :
  extracted (P := Platform.parser) (push doc) (values (push doc)).
Proof.
  apply extracted_values; [vm_compute; reflexivity|].
  repeat constructor.
Defined.

Lemma handshake_verified : verified handler (values handshake).
Proof. vm_compute. reflexivity. Defined.

Lemma push_verified doc : verified handler (values (push doc)).
Proof. vm_compute. reflexivity. Defined.

Lemma push_delivered doc :
  Platform.Unmarshal (list_byte_of_string doc) request.Request.zero
  = (envelope (push doc), None) ->
  delivered (P := Platform.parser) (D := Platform.decoder)
    handler (push doc) (envelope (push doc)).
Proof.
  intros Hdec. split; [reflexivity|]. split; [|split; [reflexivity|exact Hdec]].
  exists (values (push doc)). split; [apply push_extracted|apply push_verified].
Defined.

Lemma other_method_ignored_witness :
  run put_request start = (tt, start, []).
Proof.
  apply (other_method_ignored (K := Platform.wire) handler put_request start);
    discriminate.
Defined.

Lemma missing_parameter_invalid_witness :
  values no_echostr !! "echostr" = None /\
  exists e, trace (run no_echostr start) = [Call (InvalidRequestHandler e)].
Proof.
  split; [vm_compute; reflexivity|].
  apply (missing_parameter_invalid (K := Platform.wire) handler no_echostr
           start "echostr").
  - left. reflexivity.
  - vm_compute. tauto.
  - vm_compute. reflexivity.
Defined.

Lemma empty_parameter_as_missing_witness :
  url.Get (values empty_signature) "signature" = "" /\
  run empty_signature start = run dropped_signature start.
Proof.
  split; [vm_compute; reflexivity|].
  apply (empty_parameter_as_missing (K := Platform.wire) handler
           empty_signature dropped_signature start "signature"
           (values empty_signature)).
  - left. reflexivity.
  - vm_compute. tauto.
  - vm_compute. reflexivity.
  - vm_compute. eauto.
  - vm_compute. reflexivity.
  - reflexivity.
  - vm_compute. reflexivity.
Defined.

Lemma handshake_echo_witness :
  verified handler (values handshake) /\
  written (trace (run handshake start)) = "hello" /\
  calls (trace (run handshake start)) = [].
Proof.
  split; [apply handshake_verified|].
  apply (handshake_echo (K := Platform.wire) handler handshake start
           (values handshake)).
  - reflexivity.
  - apply handshake_extracted.
  - apply handshake_verified.
Defined.

Lemma unit_released_witness :
  In (Acquire 1%positive) (trace (run handshake start)) /\
  last (trace (run handshake start)) = Some (Release 1%positive) /\
  In 1%positive (bufferUnitPool (final (run handshake start))).
Proof.
  assert (H : In (Acquire 1%positive) (trace (run handshake start))).
  { vm_compute. tauto. }
  split; [exact H|].
  apply (unit_released (K := Platform.wire) handler handshake start _ H).
Defined.

Lemma read_or_decode_failure_invalid_witness :
  io.fail (http.Body broken_push) = Some "unexpected EOF" /\
  calls (trace (run broken_push start)) =
  [InvalidRequestHandler "unexpected EOF"].
Proof.
  split; [reflexivity|].
  apply (read_or_decode_failure_invalid (K := Platform.wire) handler
           broken_push start (values broken_push)).
  - apply start_pool_wf.
  - reflexivity.
  - apply extracted_values; [vm_compute; reflexivity|]. repeat constructor.
  - vm_compute. reflexivity.
  - left. reflexivity.
Defined.

Lemma subscribe_routing_witness :
  request.Request.Ticket (envelope (push subscribe_doc)) = "" /\
  exists e, calls (trace (run (push subscribe_doc) start)) =
            [SubscribeEventHandler e].
Proof.
  split; [vm_compute; reflexivity|].
  eexists.
  apply (subscribe_routing (K := Platform.wire) handler (push subscribe_doc)
           start (envelope (push subscribe_doc))).
  - apply wire_distinct.
  - apply start_pool_wf.
  - apply push_delivered. vm_compute. reflexivity.
  - vm_compute. reflexivity.
  - vm_compute. reflexivity.
  - vm_compute. reflexivity.
Defined.

Lemma unknown_request_copy_witness :
  unrecognized (K := Platform.wire) (envelope (push unknown_doc)) /\
  exists p msg,
    calls (trace (run (push unknown_doc) start))
    = [UnknownRequestHandler msg (list_byte_of_string unknown_doc)] /\
    In (Acquire p) (trace (run (push unknown_doc) start)) /\
    slice_bytes (store (final (run (push unknown_doc) start))) msg
    = list_byte_of_string unknown_doc.
Proof.
  assert (Hun : unrecognized (K := Platform.wire) (envelope (push unknown_doc))).
  { left. vm_compute. intuition discriminate. }
  split; [exact Hun|].
  destruct (unknown_request_copy (K := Platform.wire)
              (P := Platform.parser) (D := Platform.decoder) handler
              (push unknown_doc) start (envelope (push unknown_doc)))
    as (p & msg & H1 & H2 & H3 & _).
  - apply wire_distinct.
  - apply start_pool_wf.
  - apply push_delivered. vm_compute. reflexivity.
  - exact Hun.
  - exists p, msg. auto.
Defined.

(** C5 as stated fails: an accepted handshake invokes no callback at all
    (the handler answers it itself), and neither does a request of another
    method. *)
Lemma accepted_handshake_invokes_no_callback :
  http.Method handshake = "GET" /\
  written (trace (run handshake start)) = "hello" /\
  calls (trace (run handshake start)) = [] /\
  calls (trace (run put_request start)) = [] /\
  ~ exists c, calls (trace (run handshake start)) = [c].
Proof.
  split; [reflexivity|]. split; [vm_compute; reflexivity|].
  split; [vm_compute; reflexivity|]. split; [vm_compute; reflexivity|].
  intros [c Hc]. vm_compute in Hc. discriminate.
Qed.

(** The other paths, run. *)

Example scan_subscribe_example :
  calls (trace (run (push scan_subscribe_doc) start)) =
  [SubscribeByScanEventHandler
     {| request.SubscribeByScanEvent.CommonHead :=
          request.Request.CommonHead (envelope (push scan_subscribe_doc));
        request.SubscribeByScanEvent.Event := "subscribe";
        request.SubscribeByScanEvent.EventKey := "qrscene_7";
        request.SubscribeByScanEvent.Ticket := "abc" |}].
Proof. vm_compute. reflexivity. Qed.

Example unknown_event_example :
  trace (run (push unknown_event_doc) start) =
  [Acquire 1%positive;
   CheckSignature signature timestamp nonce token;
   Call (UnknownRequestHandler
           (Slice 2%positive (String.length unknown_event_doc))
           (list_byte_of_string unknown_event_doc));
   Release 1%positive].
Proof. vm_compute. reflexivity. Qed.

Example bad_handshake_example :
  trace (run bad_handshake start) =
  [Acquire 1%positive;
   CheckSignature "0000" timestamp nonce token;
   Call (InvalidRequestHandler "check signature failed");
   Release 1%positive].
Proof. vm_compute. reflexivity. Qed.

(** The unit released by one request serves the next, and the copy handed
    out by the first is still intact afterwards. *)
Example recycled_unit_example :
  let s1 := final (run (push unknown_doc) start) in
  let s2 := final (run (push unknown_event_doc) s1) in
  In (Acquire 1%positive) (trace (run (push unknown_event_doc) s1)) /\
  slice_bytes (store s2) (Slice 2%positive (String.length unknown_doc))
  = list_byte_of_string unknown_doc.
Proof. vm_compute. split; [tauto | reflexivity]. Qed.

End Witnesses.

(** * The further properties at work *)

Section FurtherWitnesses.

Import Examples.

Lemma warm_pool_wf : pool_wf warm.
Proof.
  apply (ServeHTTP_pool_wf (K := Platform.wire) (P := Platform.parser)
           (D := Platform.decoder) handler handshake start).
  apply start_pool_wf.
Defined.

Lemma text_routing_witness :
  request.Request.MsgType (envelope (push text_doc)) = "text" /\
  exists text,
    calls (trace (run (push text_doc) start)) = [TextRequestHandler text] /\
    request.Text.Content text = "hi".
Proof.
  split; [vm_compute; reflexivity|]. eexists. split.
  - apply (text_routing (K := Platform.wire) (P := Platform.parser)
             (D := Platform.decoder) handler (push text_doc) start
             (envelope (push text_doc))).
    + apply start_pool_wf.
    + apply push_delivered. vm_compute. reflexivity.
    + vm_compute. reflexivity.
  - vm_compute. reflexivity.
Defined.

Lemma message_routing_witness :
  request.Request.MsgType (envelope (push link_doc)) = "link" /\
  exists link,
    calls (trace (run (push link_doc) start)) = [LinkRequestHandler link] /\
    request.Link.URL link = "u".
Proof.
  split; [vm_compute; reflexivity|].
  destruct (message_routing (K := Platform.wire) (P := Platform.parser)
              (D := Platform.decoder) handler (push link_doc) start
              (envelope (push link_doc))) as [Hlink _].
  - apply wire_distinct.
  - apply start_pool_wf.
  - apply push_delivered. vm_compute. reflexivity.
  - eexists. split; [apply Hlink; vm_compute; reflexivity|].
    vm_compute. reflexivity.
Defined.

Lemma event_routing_witness :
  request.Request.Event (envelope (push click_doc)) = "CLICK" /\
  exists event,
    calls (trace (run (push click_doc) start)) = [MenuClickEventHandler event]
    /\ request.MenuClickEvent.EventKey event = "menu_1".
Proof.
  split; [vm_compute; reflexivity|].
  destruct (event_routing (K := Platform.wire) (P := Platform.parser)
              (D := Platform.decoder) handler (push click_doc) start
              (envelope (push click_doc))) as [Hclick _].
  - apply wire_distinct.
  - apply start_pool_wf.
  - apply push_delivered. vm_compute. reflexivity.
  - vm_compute. reflexivity.
  - eexists. split; [apply Hclick; vm_compute; reflexivity|].
    vm_compute. reflexivity.
Defined.

Lemma mass_send_job_finish_routing_witness :
  request.Request.Event (envelope (push mass_send_doc)) = "MASSSENDJOBFINISH"
  /\ exists event,
       calls (trace (run (push mass_send_doc) start))
       = [MassSendJobFinishEventHandler event] /\
       request.MassSendJobFinishEvent.MsgId event
       = request.Request.MsgID (envelope (push mass_send_doc)).
Proof.
  split; [vm_compute; reflexivity|].
  destruct (mass_send_job_finish_routing (K := Platform.wire)
              (P := Platform.parser) (D := Platform.decoder) handler
              (push mass_send_doc) start (envelope (push mass_send_doc)))
    as (event & Hcalls & Hid & _).
  - apply wire_distinct.
  - apply start_pool_wf.
  - apply push_delivered. vm_compute. reflexivity.
  - vm_compute. reflexivity.
  - vm_compute. reflexivity.
  - exists event. auto.
Defined.

Lemma unknown_iff_unrecognized_witness :
  unrecognized (K := Platform.wire) (envelope (push unknown_event_doc)) /\
  exists msg bytes,
    calls (trace (run (push unknown_event_doc) start))
    = [UnknownRequestHandler msg bytes].
Proof.
  assert (Hun : unrecognized (K := Platform.wire)
                  (envelope (push unknown_event_doc))).
  { right. split; [vm_compute; reflexivity|].
    vm_compute. intuition discriminate. }
  split; [exact Hun|].
  apply (unknown_iff_unrecognized (K := Platform.wire) (P := Platform.parser)
           (D := Platform.decoder) handler (push unknown_event_doc) start
           (envelope (push unknown_event_doc))).
  - apply wire_distinct.
  - apply start_pool_wf.
  - apply push_delivered. vm_compute. reflexivity.
  - exact Hun.
Defined.

Lemma first_empty_parameter_reported_witness :
  url.Get (values no_timestamp) "timestamp" = "" /\
  url.Get (values no_timestamp) "nonce" = "" /\
  run no_timestamp start =
  (tt, start, [Call (InvalidRequestHandler "timestamp is empty")]).
Proof.
  split; [vm_compute; reflexivity|]. split; [vm_compute; reflexivity|].
  apply (first_empty_parameter_reported (K := Platform.wire)
           (P := Platform.parser) (D := Platform.decoder) handler no_timestamp
           start (values no_timestamp) ["signature"] "timestamp"
           ["nonce"; "echostr"]).
  - left. reflexivity.
  - vm_compute. reflexivity.
  - reflexivity.
  - constructor; [|constructor]. vm_compute. discriminate.
  - vm_compute. reflexivity.
Defined.

Lemma query_error_passed_on_witness :
  url.Get (Platform.ParseQuery_strict
             (credentials +:+ "&echostr=hello&a;b")).1 "echostr" = "hello" /\
  run_strict semicolon_handshake start =
  (tt, start,
   [Call (InvalidRequestHandler "invalid semicolon separator in query")]).
Proof.
  split; [vm_compute; reflexivity|].
  apply (query_error_passed_on (K := Platform.wire)
           (P := Platform.strict_parser) (D := Platform.decoder) handler
           semicolon_handshake start
           {| url.RawQuery := credentials +:+ "&echostr=hello&a;b" |}
           (Platform.ParseQuery_strict
              (credentials +:+ "&echostr=hello&a;b")).1).
  - left. reflexivity.
  - reflexivity.
  - vm_compute. reflexivity.
Defined.


Lemma nothing_written_unless_accepted_witness :
  http.Method (push text_doc) = "POST" /\
  written (trace (run (push text_doc) start)) = "".
Proof.
  split; [reflexivity|].
  apply (nothing_written_unless_accepted (K := Platform.wire)
           (P := Platform.parser) (D := Platform.decoder) handler
           (push text_doc) start).
  intros [HG _]. vm_compute in HG. discriminate HG.
Defined.

Lemma callbacks_state_independent_witness :
  bufferUnitPool warm = [1%positive] /\
  calls (trace (run (push text_doc) start))
  = calls (trace (run (push text_doc) warm)).
Proof.
  split; [vm_compute; reflexivity|].
  destruct (callbacks_state_independent (K := Platform.wire)
              (P := Platform.parser) (D := Platform.decoder) handler
              (push text_doc) start warm start_pool_wf warm_pool_wf)
    as [Heq | (msg & msg' & bytes & Hc & _)].
  - exact Heq.
  - vm_compute in Hc. discriminate.
Defined.

Lemma dispatch_needs_verification_witness :
  exists c,
    In (Call c) (trace (run (push text_doc) start)) /\
    typed c = true /\
    exists vals,
      extracted (P := Platform.parser) (push text_doc) vals /\
      verified handler vals.
Proof.
  exists (TextRequestHandler
            (request.Text.Build_t
               (request.Request.CommonHead (envelope (push text_doc)))
               (request.Request.MsgId (envelope (push text_doc)))
               (request.Request.Content (envelope (push text_doc))))).
  assert (Hin : In (Call (TextRequestHandler
            (request.Text.Build_t
               (request.Request.CommonHead (envelope (push text_doc)))
               (request.Request.MsgId (envelope (push text_doc)))
               (request.Request.Content (envelope (push text_doc))))))
            (trace (run (push text_doc) start))).
  { vm_compute. tauto. }
  split; [exact Hin|]. split; [reflexivity|].
  apply (dispatch_needs_verification (K := Platform.wire)
           (P := Platform.parser) (D := Platform.decoder) handler
           (push text_doc) start _ Hin).
  discriminate.
Defined.

End FurtherWitnesses.
